(** * The [akari://] protocol shard ([src/main/shards/akari-protocol/index.ts])

    A shallow embedding of [AkariProtocolMain]: the request interceptor
    installed by [_handlePartitionAkariProtocol], the domain registry
    ([registerDomain] / [unregisterDomain]), the local file responder
    ([_toLocalFileResponse]) and the stream bridge
    ([convertWebStreamToNodeStream]), followed by the properties of each. *)

From stdpp Require Import base option list gmap strings.
From Stdlib Require Import ZArith NArith Ascii String Lia DecimalString DecimalPos DecimalN.

Local Open Scope Z_scope.

(** ** JavaScript strings

    A JavaScript string is a finite sequence of UTF-16 code units.  Code
    units are kept as [N]; string literals of the source are written with
    [lit]. *)

Module JS.

Abbreviation jsstring := (list N).

Fixpoint lit (s : string) : jsstring :=
  match s with
  | EmptyString => []
  | String a s' => N_of_ascii a :: lit s'
  end.

(** [s.length] *)
Definition str_length (s : jsstring) : Z := Z.of_nat (List.length s).

(** Relative index resolution shared by [slice]'s two arguments: a
    negative index counts from the end, and the result is clamped to
    [0 .. len]. *)
Definition relative_index (len k : Z) : Z :=
  if k <? 0 then Z.max (len + k) 0 else Z.min k len.

(** [s.slice(start, end)]; [end_ = None] is the call with one argument. *)
Definition slice (s : jsstring) (start : Z) (end_ : option Z) : jsstring :=
  let len := str_length s in
  let from := relative_index len start in
  let to := match end_ with
            | None => len
            | Some e => relative_index len e
            end in
  if from <? to
  then take (Z.to_nat (to - from)) (drop (Z.to_nat from) s)
  else [].

(** Does [pat] occur at the start of [s]? *)
Fixpoint starts_with (pat s : jsstring) : bool :=
  match pat, s with
  | [], _ => true
  | _ :: _, [] => false
  | p :: pat', c :: s' => (p =? c)%N && starts_with pat' s'
  end.

Fixpoint indexOf_from (s pat : jsstring) (k : Z) : Z :=
  if starts_with pat s then k
  else match s with
       | [] => -1
       | _ :: s' => indexOf_from s' pat (k + 1)
       end.

(** [s.indexOf(pat)]: the least position at which [pat] occurs, [-1]
    when there is none. *)
Definition indexOf (s pat : jsstring) : Z := indexOf_from s pat 0.

(** The code units removed by [trim]: ECMAScript's WhiteSpace and
    LineTerminator productions. *)
Definition is_white_space (c : N) : bool :=
  ((9 <=? c) && (c <=? 13) || (c =? 32) || (c =? 160) || (c =? 5760)
   || (8192 <=? c) && (c <=? 8202) || (c =? 8232) || (c =? 8233)
   || (c =? 8239) || (c =? 8287) || (c =? 12288) || (c =? 65279))%N.

Fixpoint trimStart (s : jsstring) : jsstring :=
  match s with
  | [] => []
  | c :: s' => if is_white_space c then trimStart s' else s
  end.

Definition trimEnd (s : jsstring) : jsstring :=
  reverse (trimStart (reverse s)).

(** [s.trim()] *)
Definition trim (s : jsstring) : jsstring := trimEnd (trimStart s).

(** The JavaScript number a non-negative integer below [2^1024] becomes:
    the nearest double, that is the integer itself up to 53 significant
    bits, and beyond that the 53 leading bits rounded to nearest, ties to
    even. *)
Definition to_number (n : N) : N :=
  let bits := N.size n in
  if (bits <=? 53)%N then n
  else
    let shift := (bits - 53)%N in
    let q := N.shiftr n shift in
    let r := N.land n (N.ones shift) in
    let half := N.shiftl 1 (shift - 1) in
    let q' := if (r <? half)%N then q
              else if (half <? r)%N then (q + 1)%N
              else if N.even q then q else (q + 1)%N in
    N.shiftl q' shift.

(** [n.toString()] for a number holding a non-negative integer below
    [10^21]: its decimal digits.  (From [10^21] on JavaScript writes an
    exponent; the one number the shard prints, [stats.size], is at most
    [2^64].) *)
Definition Number_toString (n : N) : jsstring :=
  lit (NilZero.string_of_uint (N.to_uint n)).

(** Errors as far as the code inspects them: [error.code] (absent on
    errors that are not system errors) and [error.message]. *)
Record Error := mkError {
  code : option jsstring;
  message : jsstring
}.

(** [new Error(message)] *)
Definition new_Error (msg : jsstring) : Error :=
  {| code := None; message := msg |}.

(** How a call (or an awaited promise) completes. *)
Inductive Completion (A : Type) : Type :=
| Normal (a : A)
| Throw (e : Error).
Arguments Normal {A} a.
Arguments Throw {A} e.

(** Truthiness of a [string | null] value, as [||] tests it. *)
Definition or_else (v : option jsstring) (dflt : jsstring) : jsstring :=
  match v with
  | Some [] => dflt
  | Some s => s
  | None => dflt
  end.

End JS.

Import JS.

(** ** Requests and responses (the Fetch API values the shard handles) *)

(** [fs.createReadStream(path)]: a lazy stream over the file at [path]. *)
Record ReadStream := createReadStream { stream_path : jsstring }.

Inductive Body :=
| BodyText (text : jsstring)
| BodyStream (stream : ReadStream).

Abbreviation Headers := (list (jsstring * jsstring)).

(** A request; the shard reads only [url]. *)
Record Request := {
  url : jsstring;
  method : jsstring;
  request_headers : Headers
}.

(** The second argument of [new Response]; members left out of the object
    literal are [None]. *)
Record ResponseInit := {
  init_status : option Z;
  init_statusText : option jsstring;
  init_headers : Headers
}.

Record Response := {
  body : Body;
  status : Z;
  statusText : jsstring;
  headers : Headers
}.

(** [new Response(body, init)]: the status defaults to 200 and the status
    text to the empty string. *)
Definition new_Response (b : Body) (init : ResponseInit) : Response :=
  {| body := b;
     status := default 200 (init_status init);
     statusText := default [] (init_statusText init);
     headers := init_headers init |}.

(** The value of the first header called [name], if any. *)
Fixpoint get_header (name : jsstring) (hs : Headers) : option jsstring :=
  match hs with
  | [] => None
  | (k, v) :: hs' => if decide (k = name) then Some v else get_header name hs'
  end.

(** ** The shard *)

(** A domain handler: [(uri, req) => Promise<Response> | Response]. *)
Abbreviation Handler := (jsstring -> Request -> Completion Response).

(** The [mime] package's [Mime] object; [getType] returns [null] for an
    extension it does not know. *)
Record Mime := { getType : jsstring -> option jsstring }.

(** The fields of an [AkariProtocolMain] instance. *)
Record AkariProtocolMain := {
  _domainRegistry : gmap jsstring Handler;
  _mime : Mime
}.

Definition AKARI_PROXY_PROTOCOL : jsstring := lit "akari".

(** *** [_handlePartitionAkariProtocol]: the callback given to
    [protocol.handle] *)

Definition request_path1 (req : Request) : jsstring :=
  slice (url req) (str_length (AKARI_PROXY_PROTOCOL ++ lit "://")) None.

Definition request_index (req : Request) : Z :=
  indexOf (request_path1 req) (lit "/").

Definition request_domain (req : Request) : jsstring :=
  trim (slice (request_path1 req) 0 (Some (request_index req))).

Definition request_uri (req : Request) : jsstring :=
  trim (slice (request_path1 req) (request_index req + 1) None).

Definition no_handler_response (req : Request) : Response :=
  new_Response (BodyText (lit "No handler for " ++ url req))
    {| init_status := Some 404;
       init_statusText := Some (lit "Not Found");
       init_headers := [(lit "Content-Type", lit "text/plain")] |}.

Definition handle_request (this : AkariProtocolMain) (req : Request)
  : Completion Response :=
  let path1 := slice (url req) (str_length (AKARI_PROXY_PROTOCOL ++ lit "://")) None in
  let index := indexOf path1 (lit "/") in
  let domain := trim (slice path1 0 (Some index)) in
  let uri := trim (slice path1 (index + 1) None) in
  match _domainRegistry this !! domain with
  | Some handler => handler uri req
  | None => Normal (no_handler_response req)
  end.

(** *** [registerDomain] and [unregisterDomain]

    Methods that mutate [this] and may throw: a computation takes the
    instance and returns how the call completed together with the
    instance as the call left it. *)

Definition Method (A : Type) : Type :=
  AkariProtocolMain -> Completion A * AkariProtocolMain.

Definition ret {A} (a : A) : Method A := fun this => (Normal a, this).

Definition throw {A} (e : Error) : Method A := fun this => (Throw e, this).

Definition bind {A B} (m : Method A) (k : A -> Method B) : Method B :=
  fun this =>
    match m this with
    | (Normal a, this') => k a this'
    | (Throw e, this') => (Throw e, this')
    end.

Definition and_then {A B} (m : Method A) (k : Method B) : Method B :=
  bind m (fun _ => k).

Infix ">>>" := and_then (at level 90, right associativity).

(** [this._domainRegistry.has(domain)] *)
Definition registry_has (domain : jsstring) : Method bool :=
  fun this => (Normal (bool_decide (is_Some (_domainRegistry this !! domain))), this).

(** [this._domainRegistry.set(domain, handler)] *)
Definition registry_set (domain : jsstring) (handler : Handler) : Method unit :=
  fun this =>
    (Normal tt, {| _domainRegistry := <[domain := handler]> (_domainRegistry this);
                   _mime := _mime this |}).

(** [this._domainRegistry.delete(domain)] *)
Definition registry_delete (domain : jsstring) : Method unit :=
  fun this =>
    (Normal tt, {| _domainRegistry := delete domain (_domainRegistry this);
                   _mime := _mime this |}).

Definition already_registered (domain : jsstring) : Error :=
  new_Error (lit "Domain " ++ domain ++ lit " is already registered").

Definition not_registered (domain : jsstring) : Error :=
  new_Error (lit "Domain " ++ domain ++ lit " is not registered").

Definition registerDomain (domain : jsstring) (handler : Handler) : Method unit :=
  bind (registry_has domain) (fun present =>
    if present then throw (already_registered domain)
    else registry_set domain handler).

Definition unregisterDomain (domain : jsstring) : Method unit :=
  bind (registry_has domain) (fun present =>
    if negb present then throw (not_registered domain)
    else registry_delete domain).

(** [this._domainRegistry.get(domain)], the read the interceptor makes. *)
Definition lookup_domain (this : AkariProtocolMain) (domain : jsstring)
  : option Handler :=
  _domainRegistry this !! domain.

(** *** [register] and the URL of the requests *)





(** The URL of a standard scheme is written by Chromium's URL serialiser
    before the request reaches the callback; the serialiser is not part of
    this repository.  What follows is its effect on a URI [akari://]
    followed by [rest] that has no path: the host stands as it is and the
    path ["/"] is written after it, before the query if there is one.
    Only URIs on which the serialiser does nothing else are covered: the
    host is a lower-case letter followed by lower-case letters, digits and
    hyphens (and is not an [xn--] name), and the query is made of letters,
    digits and [- . _ ~ = &]; elsewhere the result is [None]. *)










(** *** [_toLocalFileResponse] *)

(** What [stat] found at the path: the kind of file and [st_size], the
    64-bit byte count of the file.  [isDirectory()] and [size] are the two
    members of [fs.Stats] the responder reads. *)
Inductive FileKind := RegularFile | Directory | OtherKind.

Record Stats := {
  kind : FileKind;
  st_size : N
}.

(** [stats.size]: the byte count as a JavaScript number, which is the
    64-bit count converted to a double. *)
Definition size (stats : Stats) : N :=
  to_number (st_size stats mod 2 ^ 64)%N.

Definition isDirectory (stats : Stats) : bool :=
  match kind stats with
  | Directory => true
  | _ => false
  end.

(** The services of the host the responder calls: [path.resolve],
    [fs.promises.access], [fs.promises.stat] and
    [new Date().toUTCString()]. *)
Record Host := {
  path_resolve : jsstring -> jsstring;
  fs_access : jsstring -> Z -> Completion unit;
  fs_stat : jsstring -> Completion Stats;
  date_toUTCString : jsstring
}.

(** [fs.constants] *)
Definition F_OK : Z := 0.
Definition R_OK : Z := 4.

(** [await] inside the [try] block: the first rejection leaves the block. *)
Definition await {A B} (c : Completion A) (k : A -> Completion B) : Completion B :=
  match c with
  | Normal a => k a
  | Throw e => Throw e
  end.

(** [try { ... } catch (error) { ... }] around a block that returns. *)
Definition try_catch {A} (block : Completion A) (handler : Error -> A) : A :=
  match block with
  | Normal a => a
  | Throw error => handler error
  end.

Definition text_plain : Headers := [(lit "Content-Type", lit "text/plain")].

Definition _toLocalFileResponse (this : AkariProtocolMain) (host : Host)
    (uri : jsstring) : Response :=
  let filePath := path_resolve host uri in
  try_catch
    (await (fs_access host filePath (Z.lor F_OK R_OK)) (fun _ =>
     await (fs_stat host filePath) (fun stats =>
       if isDirectory stats then
         Normal (new_Response (BodyText (lit "Cannot read directory: " ++ uri))
                   {| init_status := Some 403;
                      init_statusText := None;
                      init_headers := text_plain |})
       else
         Normal (new_Response (BodyStream (createReadStream filePath))
                   {| init_status := None;
                      init_statusText := None;
                      init_headers :=
                        [ (lit "Access-Control-Allow-Origin", lit "*");
                          (lit "Connection", lit "keep-alive");
                          (lit "Content-Type",
                            or_else (getType (_mime this) filePath)
                                    (lit "application/octet-stream"));
                          (lit "Cache-Control", lit "no-cache");
                          (lit "Content-Length", Number_toString (size stats));
                          (lit "Date", date_toUTCString host) ] |}))))
    (fun error =>
       if decide (code error = Some (lit "ENOENT")) then
         new_Response (BodyText (message error))
           {| init_status := Some 404;
              init_statusText := None;
              init_headers := text_plain |}
       else if decide (code error = Some (lit "EACCES")) then
         new_Response (BodyText (message error))
           {| init_status := Some 403;
              init_statusText := None;
              init_headers := text_plain |}
       else
         new_Response (BodyText (message error))
           {| init_status := Some 500;
              init_statusText := None;
              init_headers := text_plain |}).

(** *** [convertWebStreamToNodeStream] *)

Section StreamAdapter.

(** The type of the chunks the web stream carries, values other than
    [null] ([Uint8Array]s for a fetch body). *)
Context {Chunk : Type}.

(** What happens once the chunks queued in a web stream have been read:
    the stream closes, it errors, or no further chunk ever arrives. *)
Inductive StreamEnding :=
| Closes
| Errors (e : Error)
| Stalls.

(** A [ReadableStream], by what its reader will deliver. *)
Record ReadableStream := {
  queued : list Chunk;
  ending : StreamEnding
}.

(** [readableStream.getReader()]: the reader holds the stream it drains. *)
Record Reader := getReader { source : ReadableStream }.

(** A settled [reader.read()]: [{ done: false, value }], [{ done: true }]
    or a rejection. *)
Inductive ReadResult :=
| ReadValue (value : Chunk)
| ReadDone
| ReadRejected (e : Error).

(** [reader.read()]: the settlement and the reader afterwards; [None]
    when the promise never settles. *)
Definition reader_read (reader : Reader) : option (ReadResult * Reader) :=
  match queued (source reader) with
  | value :: rest =>
      Some (ReadValue value,
            getReader {| queued := rest; ending := ending (source reader) |})
  | [] =>
      match ending (source reader) with
      | Closes => Some (ReadDone, reader)
      | Errors e => Some (ReadRejected e, reader)
      | Stalls => None
      end
  end.

(** The async generator object: suspended at its start or at [yield],
    holding the reader, or completed. *)
Inductive Generator :=
| Suspended (reader : Reader)
| Completed.

Inductive IteratorResult :=
| IterValue (value : Chunk)
| IterDone.

(** One [next()] of the generator: the loop body runs from the [await]
    to the [yield] or to a [break]; [None] while the [await] is pending. *)
Definition generator_next (g : Generator)
  : option (IteratorResult * Generator) :=
  match g with
  | Completed => Some (IterDone, Completed)
  | Suspended reader =>
      match reader_read reader with
      | None => None
      | Some (ReadValue value, reader') =>
          Some (IterValue value, Suspended reader')
      | Some (ReadDone, _) => Some (IterDone, Completed)
      | Some (ReadRejected _, _) => Some (IterDone, Completed)
      end
  end.

(** [Readable.from(iterable)]: the Node stream over the iterator. *)
Record Readable := Readable_from { iterator : Generator }.

Definition convertWebStreamToNodeStream (readableStream : ReadableStream)
  : Readable :=
  let reader := getReader readableStream in
  let nodeStream := Readable_from (Suspended reader) in
  nodeStream.

(** What a Node stream hands to its consumer: a chunk, or the end of the
    stream. *)
Inductive StreamEvent :=
| Push (chunk : Chunk)
| End_.

(** The stream drives its iterator as the consumer reads: every value
    yielded is pushed, and when the iterator is done the stream is ended
    and the iterator is not called again.  [demand] bounds the number of
    [next()] calls the consumer causes. *)
Fixpoint drive (demand : nat) (g : Generator) : list StreamEvent :=
  match demand with
  | O => []
  | S demand' =>
      match generator_next g with
      | None => []
      | Some (IterValue value, g') => Push value :: drive demand' g'
      | Some (IterDone, _) => [End_]
      end
  end.

(** The events of a Node stream whose consumer causes [demand] reads. *)
Definition emitted (nodeStream : Readable) (demand : nat) : list StreamEvent :=
  drive demand (iterator nodeStream).

(** The chunks among the events, in order, and the number of end
    signals. *)
Definition pushed (evs : list StreamEvent) : list Chunk :=
  omap (fun ev => match ev with Push c => Some c | End_ => None end) evs.

Definition is_end (ev : StreamEvent) : bool :=
  match ev with
  | End_ => true
  | Push _ => false
  end.

Definition ends (evs : list StreamEvent) : nat :=
  List.length (List.filter is_end evs).

End StreamAdapter.

(** ** Vocabulary of the statements *)

(** Every code unit of [s] is white space. *)
Definition all_white_space (s : jsstring) : Prop :=
  Forall (fun c => is_white_space c = true) s.

(** [s] neither starts nor ends with a white space code unit. *)
Definition no_outer_white_space (s : jsstring) : Prop :=
  (forall c, head s = Some c -> is_white_space c = false) /\
  (forall c, last s = Some c -> is_white_space c = false).

(** U+002F, the code unit of ['/']. *)
Definition SOLIDUS : N := 47.

(** A request whose URI is [akari://] followed by [rest]. *)
Definition akari_request (rest : jsstring) (req : Request) : Prop :=
  url req = AKARI_PROXY_PROTOCOL ++ lit "://" ++ rest.

(** The instance after [this._domainRegistry.set(domain, handler)]. *)
Definition with_handler (domain : jsstring) (handler : Handler)
    (this : AkariProtocolMain) : AkariProtocolMain :=
  snd (registry_set domain handler this).

(** The instance after [this._domainRegistry.delete(domain)]. *)
Definition without_handler (domain : jsstring)
    (this : AkariProtocolMain) : AkariProtocolMain :=
  snd (registry_delete domain this).

(** A call of one of the two registry methods, and the instance after a
    series of them, made by callers that carry on when a call throws. *)
Inductive RegistryCall :=
| CallRegister (domain : jsstring) (handler : Handler)
| CallUnregister (domain : jsstring).

Definition call (c : RegistryCall) : Method unit :=
  match c with
  | CallRegister domain handler => registerDomain domain handler
  | CallUnregister domain => unregisterDomain domain
  end.

Definition after_calls (cs : list RegistryCall) (this : AkariProtocolMain)
  : AkariProtocolMain :=
  fold_left (fun this' c => snd (call c this')) cs this.

(** The resolved path passes the access check and [stat] returns
    [stats]. *)
Definition accessible (host : Host) (filePath : jsstring) (stats : Stats)
  : Prop :=
  fs_access host filePath (Z.lor F_OK R_OK) = Normal tt /\
  fs_stat host filePath = Normal stats.

(** The access check, or [stat] after it, rejects with [error]. *)
Definition access_fails (host : Host) (filePath : jsstring) (error : Error)
  : Prop :=
  fs_access host filePath (Z.lor F_OK R_OK) = Throw error \/
  (fs_access host filePath (Z.lor F_OK R_OK) = Normal tt /\
   fs_stat host filePath = Throw error).



Definition system_error (c msg : string) : Error :=
  {| code := Some (lit c); message := lit msg |}.

Definition sample_host : Host :=
  {| path_resolve := fun uri => lit "/srv/" ++ uri;
     fs_access := fun filePath _ =>
       if decide (filePath = lit "/srv/missing") then
         Throw (system_error "ENOENT" "ENOENT: no such file or directory, access '/srv/missing'")
       else if decide (filePath = lit "/srv/secret") then
         Throw (system_error "EACCES" "EACCES: permission denied, access '/srv/secret'")
       else if decide (filePath = lit "/srv/loop") then
         Throw (system_error "ELOOP" "ELOOP: too many symbolic links encountered, access '/srv/loop'")
       else Normal tt;
     fs_stat := fun filePath =>
       if decide (filePath = lit "/srv/dir") then
         Normal {| kind := Directory; st_size := 4096 |}
       else if decide (filePath = lit "/srv/gone") then
         Throw (system_error "ENOENT" "ENOENT: no such file or directory, stat '/srv/gone'")
       else Normal {| kind := RegularFile; st_size := 5 |};
     date_toUTCString := lit "Tue, 03 Nov 2026 08:00:00 GMT" |}.

(** The instance as the constructor leaves it ([new Map()]), with the
    [mime] module [onInit] loads. *)
Definition new_AkariProtocolMain (mime : Mime) : AkariProtocolMain :=
  {| _domainRegistry := ∅; _mime := mime |}.

(** Sample values the statements are instantiated at. *)
Definition sample_mime : Mime :=
  {| getType := fun path =>
       if decide (drop (List.length path - 4) path = lit ".txt")
       then Some (lit "text/plain") else None |}.

Definition sample_request (u : jsstring) : Request :=
  {| url := u; method := lit "GET"; request_headers := [] |}.

Definition sample_handler (tag : jsstring) : Handler :=
  fun uri _ =>
    Normal (new_Response (BodyText (tag ++ uri))
              {| init_status := None;
                 init_statusText := None;
                 init_headers := [] |}).

(** The URI a caller writes for [domain] and [uri]. *)
Definition akari_url (domain uri : jsstring) : jsstring :=
  AKARI_PROXY_PROTOCOL ++ lit "://" ++ domain ++ lit "/" ++ uri.

(** A name no request can select: it holds a ['/'], or white space at one
    of its ends. *)
Definition unreachable_name (domain : jsstring) : Prop :=
  SOLIDUS ∈ domain \/ ~ no_outer_white_space domain.

(** The domain a registry call is about. *)
Definition call_domain (c : RegistryCall) : jsstring :=
  match c with
  | CallRegister domain _ => domain
  | CallUnregister domain => domain
  end.

(** The handler of the first [registerDomain] call for [d] in a series. *)
Fixpoint first_register (d : jsstring) (cs : list RegistryCall)
  : option Handler :=
  match cs with
  | [] => None
  | CallRegister domain handler :: cs' =>
      if decide (domain = d) then Some handler else first_register d cs'
  | CallUnregister _ :: cs' => first_register d cs'
  end.

(** The series holds no [unregisterDomain] call for [d]. *)
Definition never_unregistered (d : jsstring) (cs : list RegistryCall) : Prop :=
  forall domain, CallUnregister domain ∈ cs -> domain <> d.

(** The host with another [fs.promises.stat]. *)
Definition with_fs_stat (stat : jsstring -> Completion Stats) (host : Host)
  : Host :=
  {| path_resolve := path_resolve host;
     fs_access := fs_access host;
     fs_stat := stat;
     date_toUTCString := date_toUTCString host |}.

(** The number of [registerDomain] calls in a series. *)
Definition register_calls (cs : list RegistryCall) : nat :=
  List.length
    (List.filter
       (fun c => match c with CallRegister _ _ => true | CallUnregister _ => false end)
       cs).

(** The number of domains the registry holds ([_domainRegistry.size]). *)
Definition registry_size (this : AkariProtocolMain) : nat :=
  base.size (_domainRegistry this).

(** * Properties *)

(** ** Strings *)

Example slice_drops_last : slice (lit "files") 0 (Some (-1)) = lit "file".
Proof. reflexivity. Qed.

Example slice_rest : slice (lit "akari://files/a") 8 None = lit "files/a".
Proof. reflexivity. Qed.

Example indexOf_found : indexOf (lit "files/a/b") (lit "/") = 5.
Proof. reflexivity. Qed.

Example indexOf_not_found : indexOf (lit "files") (lit "/") = -1.
Proof. reflexivity. Qed.

Example trim_keeps_inner : trim (lit "  a b  ") = lit "a b".
Proof. reflexivity. Qed.

Example Number_toString_1024 : Number_toString 1024 = lit "1024".
Proof. reflexivity. Qed.

Example or_else_empty : or_else (Some (lit "")) (lit "x") = lit "x".
Proof. reflexivity. Qed.

Example or_else_some : or_else (Some (lit "text/html")) (lit "x") = lit "text/html".
Proof. reflexivity. Qed.

Section StringFacts.

Implicit Types (s pat : jsstring) (c : N) (k : Z).

Lemma slice_from s k :
  0 <= k -> slice s k None = drop (Z.to_nat k) s.
Proof.
  intros Hk. unfold slice, relative_index, str_length.
  destruct (Z.ltb_spec k 0) as [?|_]; [lia|].
  destruct (Z.ltb_spec (Z.min k (Z.of_nat (List.length s)))
              (Z.of_nat (List.length s))) as [Hlt|Hge].
  - rewrite Z.min_l by lia.
    rewrite take_ge; [done|]. rewrite length_drop. lia.
  - rewrite drop_ge; [done|]. lia.
Qed.

Lemma slice_to s k :
  0 <= k -> slice s 0 (Some k) = take (Z.to_nat k) s.
Proof.
  intros Hk. unfold slice, relative_index, str_length. simpl.
  destruct (Z.ltb_spec k 0) as [?|_]; [lia|].
  rewrite Z.min_l by lia. change (Z.to_nat 0) with 0%nat. rewrite drop_0.
  destruct (Z.ltb_spec 0 (Z.min k (Z.of_nat (List.length s)))) as [Hlt|Hge].
  - rewrite Z.sub_0_r.
    destruct (Z.le_ge_cases k (Z.of_nat (List.length s))).
    + by rewrite Z.min_l by lia.
    + rewrite Z.min_r by lia. rewrite Nat2Z.id.
      rewrite (take_ge s (List.length s)) by lia.
      rewrite (take_ge s (Z.to_nat k)) by lia. done.
  - destruct s as [|c s']; [by rewrite take_nil|].
    cbn [List.length] in Hge. assert (k = 0) as -> by lia. done.
Qed.

(** [s.slice(0, -1)] drops the last code unit. *)
Lemma slice_to_minus_one s :
  slice s 0 (Some (-1)) = take (List.length s - 1) s.
Proof.
  unfold slice, relative_index, str_length. simpl.
  rewrite Z.min_l by lia.
  destruct s as [|c s']; [done|].
  destruct (Z.ltb_spec 0 (Z.max (Z.of_nat (List.length (c :: s')) + -1) 0)) as [Hlt|Hge].
  - f_equal. simpl List.length in *. lia.
  - simpl List.length in *.
    assert (List.length s' = 0%nat) as -> by lia. done.
Qed.

Lemma starts_with_singleton c s :
  starts_with [c] s = match s with
                      | [] => false
                      | c' :: _ => (c =? c')%N
                      end.
Proof. destruct s; [done|]. simpl. by rewrite andb_true_r. Qed.

Lemma indexOf_from_first c before after k :
  c ∉ before ->
  indexOf_from (before ++ c :: after) [c] k = k + Z.of_nat (List.length before).
Proof.
  revert k. induction before as [|b before IH]; intros k Hnotin.
  - simpl. rewrite N.eqb_refl. simpl. lia.
  - apply not_elem_of_cons in Hnotin as [Hne Hnotin].
    cbn [app indexOf_from]. rewrite starts_with_singleton.
    destruct (N.eqb_spec c b) as [->|_]; [done|].
    rewrite IH by done. simpl List.length. lia.
Qed.

Lemma indexOf_from_absent c s k :
  c ∉ s -> indexOf_from s [c] k = -1.
Proof.
  revert k. induction s as [|b s IH]; intros k Hnotin; [done|].
  apply not_elem_of_cons in Hnotin as [Hne Hnotin].
  cbn [indexOf_from]. rewrite starts_with_singleton.
  destruct (N.eqb_spec c b) as [->|_]; [done|]. by apply IH.
Qed.

(** [indexOf] of a single code unit finds its first occurrence. *)
Lemma indexOf_first c before after :
  c ∉ before ->
  indexOf (before ++ c :: after) [c] = Z.of_nat (List.length before).
Proof. intros H. unfold indexOf. by rewrite indexOf_from_first. Qed.

Lemma indexOf_absent c s : c ∉ s -> indexOf s [c] = -1.
Proof. apply indexOf_from_absent. Qed.

End StringFacts.

(** What [trim] removes and what it keeps. *)
Section TrimFacts.

Implicit Types (s l r : jsstring) (c : N).

Lemma trimStart_split s :
  exists l, s = l ++ trimStart s /\ all_white_space l.
Proof.
  induction s as [|c s [l [Heq Hl]]].
  - exists []. split; [done|constructor].
  - simpl. destruct (is_white_space c) eqn:Hc.
    + exists (c :: l). split; [by rewrite Heq at 1|by constructor].
    + exists []. split; [done|constructor].
Qed.

Lemma trimStart_head s c :
  head (trimStart s) = Some c -> is_white_space c = false.
Proof.
  induction s as [|b s IH]; [done|].
  simpl. destruct (is_white_space b) eqn:Hb; [done|].
  simpl. by intros [= <-].
Qed.

Lemma trimEnd_split s :
  exists r, s = trimEnd s ++ r /\ all_white_space r.
Proof.
  destruct (trimStart_split (reverse s)) as [l [Heq Hl]].
  exists (reverse l). split.
  - unfold trimEnd. rewrite <- reverse_app, <- Heq. by rewrite reverse_involutive.
  - unfold all_white_space. by apply Forall_reverse.
Qed.

Lemma trimEnd_last s c :
  last (trimEnd s) = Some c -> is_white_space c = false.
Proof.
  unfold trimEnd. rewrite last_reverse. apply trimStart_head.
Qed.

Lemma trimEnd_head s c :
  (forall c', head s = Some c' -> is_white_space c' = false) ->
  head (trimEnd s) = Some c -> is_white_space c = false.
Proof.
  intros Hs Hc. destruct (trimEnd_split s) as [r [Heq _]].
  apply Hs. rewrite Heq. destruct (trimEnd s); [done|]. done.
Qed.

(** [trim] cuts a run of white space off each end and nothing else: the
    string is [l ++ trim s ++ r] with [l] and [r] white space only, and
    [trim s], with whatever white space it has inside, has none at its
    ends. *)
Lemma trim_spec s :
  exists l r,
    s = l ++ trim s ++ r /\ all_white_space l /\ all_white_space r /\
    no_outer_white_space (trim s).
Proof.
  destruct (trimStart_split s) as [l [Hl Hwl]].
  destruct (trimEnd_split (trimStart s)) as [r [Hr Hwr]].
  exists l, r. unfold trim. repeat split; try done.
  - by rewrite <- Hr.
  - intros c. apply trimEnd_head. intros c'. apply trimStart_head.
  - intros c. apply trimEnd_last.
Qed.

Lemma trimStart_id s :
  (forall c, head s = Some c -> is_white_space c = false) -> trimStart s = s.
Proof.
  destruct s as [|c s]; [done|]. intros H. simpl. by rewrite (H c).
Qed.

(** A string without white space at its ends is left as it is. *)
Lemma trim_id s : no_outer_white_space s -> trim s = s.
Proof.
  intros [Hh Hl]. unfold trim, trimEnd. rewrite (trimStart_id s) by done.
  rewrite trimStart_id; [apply reverse_involutive|].
  intros c. rewrite head_reverse. apply Hl.
Qed.

End TrimFacts.

(** ** The interceptor *)

Section InterceptorFacts.

Implicit Types (this : AkariProtocolMain) (req : Request).
Implicit Types (rest before after : jsstring).

(** The interceptor in terms of the domain and the remainder it parsed. *)
Lemma handle_request_dispatch this req :
  handle_request this req =
  match _domainRegistry this !! request_domain req with
  | Some handler => handler (request_uri req) req
  | None => Normal (no_handler_response req)
  end.
Proof. reflexivity. Qed.

Lemma request_path1_akari rest req :
  akari_request rest req -> request_path1 req = rest.
Proof.
  unfold akari_request, request_path1. intros ->.
  rewrite slice_from by (unfold str_length; lia). reflexivity.
Qed.

Lemma request_index_slash before after req :
  akari_request (before ++ lit "/" ++ after) req ->
  SOLIDUS ∉ before ->
  request_index req = Z.of_nat (List.length before).
Proof.
  intros Hreq Hnotin. unfold request_index.
  rewrite (request_path1_akari _ _ Hreq). by apply indexOf_first.
Qed.

Lemma request_index_no_slash rest req :
  akari_request rest req -> SOLIDUS ∉ rest -> request_index req = -1.
Proof.
  intros Hreq Hnotin. unfold request_index.
  rewrite (request_path1_akari _ _ Hreq). by apply indexOf_absent.
Qed.

Lemma parse_slash before after req :
  akari_request (before ++ lit "/" ++ after) req ->
  SOLIDUS ∉ before ->
  request_domain req = trim before /\ request_uri req = trim after.
Proof.
  intros Hreq Hnotin. unfold request_domain, request_uri.
  rewrite (request_index_slash _ _ _ Hreq Hnotin).
  rewrite (request_path1_akari _ _ Hreq).
  rewrite slice_to, slice_from by lia. split; f_equal.
  - rewrite Nat2Z.id. by rewrite take_app_length.
  - replace (Z.to_nat (Z.of_nat (List.length before) + 1))
      with (List.length before + 1)%nat by lia.
    rewrite <- drop_drop, drop_app_length. reflexivity.
Qed.

Lemma parse_no_slash rest req :
  akari_request rest req ->
  SOLIDUS ∉ rest ->
  request_domain req = trim (take (List.length rest - 1) rest) /\
  request_uri req = trim rest.
Proof.
  intros Hreq Hnotin. unfold request_domain, request_uri.
  rewrite (request_index_no_slash _ _ Hreq Hnotin).
  rewrite (request_path1_akari _ _ Hreq).
  rewrite slice_to_minus_one. split; [done|].
  by rewrite slice_from.
Qed.

Lemma handle_request_with_handler_eq this req handler :
  handle_request (with_handler (request_domain req) handler this) req
  = handler (request_uri req) req.
Proof.
  rewrite handle_request_dispatch. unfold with_handler. simpl.
  by rewrite lookup_insert_eq.
Qed.

Lemma handle_request_with_handler_ne this req key handler :
  key <> request_domain req ->
  handle_request (with_handler key handler this) req
  = handle_request this req.
Proof.
  intros Hne. rewrite !handle_request_dispatch. unfold with_handler. simpl.
  by rewrite lookup_insert_ne.
Qed.

End InterceptorFacts.

(** What the interceptor does with [akari://before/after], [before]
    holding no ['/']. *)
Lemma interceptor_slash_uri this req before after :
  akari_request (before ++ lit "/" ++ after) req ->
  SOLIDUS ∉ before ->
  request_path1 req = before ++ lit "/" ++ after /\
  request_domain req = trim before /\
  request_uri req = trim after /\
  (handle_request this req =
     match _domainRegistry this !! trim before with
     | Some handler => handler (trim after) req
     | None => Normal (no_handler_response req)
     end) /\
  (forall handler,
     handle_request (with_handler (trim before) handler this) req
     = handler (trim after) req) /\
  (forall key handler, key <> trim before ->
     handle_request (with_handler key handler this) req
     = handle_request this req).
Proof.
  intros Hreq Hnotin.
  destruct (parse_slash _ _ _ Hreq Hnotin) as [Hdom Huri].
  split; [by apply request_path1_akari|].
  split; [done|]. split; [done|].
  split; [by rewrite handle_request_dispatch, Hdom, Huri|].
  split.
  - intros handler. rewrite <- Hdom, <- Huri.
    apply handle_request_with_handler_eq.
  - intros key handler Hne. apply handle_request_with_handler_ne.
    by rewrite Hdom.
Qed.

(** C1. For a request URI [akari://] ++ [rest] where [rest] holds a ['/'],
    [rest] is [before ++ "/" ++ after] with no ['/'] in [before] (the split
    at the first ['/']), and the interceptor takes [before], trimmed, as
    the domain and [after], trimmed, as the remainder.  Trimming removes a
    run of white space at each end and keeps everything between.  The
    handler invoked is the one stored under exactly the parsed domain: a
    handler set under that string is called with the remainder and the
    request, one set under any other string (one that differs only in
    case, say) changes nothing.  [akari://files/a/b/c.txt] gives the domain
    [files] and the remainder [a/b/c.txt]. *)
Theorem C1_parse_slash_uri this req rest :
  akari_request rest req ->
  SOLIDUS ∈ rest ->
  (exists before after,
     rest = before ++ lit "/" ++ after /\
     (SOLIDUS ∉ before) /\
     request_path1 req = rest /\
     request_domain req = trim before /\
     request_uri req = trim after /\
     (exists l r, before = l ++ trim before ++ r /\
        all_white_space l /\ all_white_space r /\
        no_outer_white_space (trim before)) /\
     (exists l r, after = l ++ trim after ++ r /\
        all_white_space l /\ all_white_space r /\
        no_outer_white_space (trim after)) /\
     (handle_request this req =
        match _domainRegistry this !! trim before with
        | Some handler => handler (trim after) req
        | None => Normal (no_handler_response req)
        end) /\
     (forall handler,
        handle_request (with_handler (trim before) handler this) req
        = handler (trim after) req) /\
     (forall key handler, key <> trim before ->
        handle_request (with_handler key handler this) req
        = handle_request this req)) /\
  (forall req', url req' = lit "akari://files/a/b/c.txt" ->
     request_domain req' = lit "files" /\
     request_uri req' = lit "a/b/c.txt").
Proof.
  intros Hreq Hin. split.
  - apply list_elem_of_split_l in Hin as (before & after & -> & Hnotin).
    destruct (interceptor_slash_uri this req before after Hreq Hnotin)
      as (Hpath & Hdom & Huri & Hdispatch & Heq & Hne).
    exists before, after.
    split; [reflexivity|]. split; [exact Hnotin|].
    split; [exact Hpath|]. split; [exact Hdom|]. split; [exact Huri|].
    split; [apply trim_spec|]. split; [apply trim_spec|].
    split; [exact Hdispatch|]. split; [exact Heq|exact Hne].
  - intros req' Hurl. unfold request_domain, request_uri, request_index,
      request_path1. rewrite Hurl. split; reflexivity.
Qed.

Lemma C1_parse_slash_uri_witness :
  akari_request (lit " League-Client /lol-summoner/v1/current summoner ")
    (sample_request (lit "akari:// League-Client /lol-summoner/v1/current summoner ")) /\
  (SOLIDUS ∈ lit " League-Client /lol-summoner/v1/current summoner ") /\
  request_domain (sample_request (lit "akari:// League-Client /lol-summoner/v1/current summoner "))
  = lit "League-Client" /\
  request_uri (sample_request (lit "akari:// League-Client /lol-summoner/v1/current summoner "))
  = lit "lol-summoner/v1/current summoner" /\
  handle_request
    (with_handler (lit "league-client") (sample_handler (lit "lower:"))
       (with_handler (lit "League-Client") (sample_handler (lit "upper:"))
          (new_AkariProtocolMain sample_mime)))
    (sample_request (lit "akari:// League-Client /lol-summoner/v1/current summoner "))
  = sample_handler (lit "upper:") (lit "lol-summoner/v1/current summoner")
      (sample_request (lit "akari:// League-Client /lol-summoner/v1/current summoner ")).
Proof.
  assert (Hreq : akari_request
            (lit " League-Client /lol-summoner/v1/current summoner ")
            (sample_request (lit "akari:// League-Client /lol-summoner/v1/current summoner ")))
    by reflexivity.
  assert (Hin : SOLIDUS ∈ lit " League-Client /lol-summoner/v1/current summoner ")
    by (apply (bool_decide_unpack _); vm_compute; exact I).
  split; [exact Hreq|]. split; [exact Hin|].
  destruct (C1_parse_slash_uri
              (with_handler (lit "League-Client") (sample_handler (lit "upper:"))
                 (new_AkariProtocolMain sample_mime))
              _ _ Hreq Hin)
    as [(before & after & Hsplit & Hnotin & _ & Hdom & Huri & _ & _ & Hdispatch & _ & Hne) _].
  assert (Hd : request_domain
                 (sample_request (lit "akari:// League-Client /lol-summoner/v1/current summoner "))
               = lit "League-Client") by reflexivity.
  assert (Hu : request_uri
                 (sample_request (lit "akari:// League-Client /lol-summoner/v1/current summoner "))
               = lit "lol-summoner/v1/current summoner") by reflexivity.
  split; [exact Hd|]. split; [exact Hu|].
  rewrite Hne by (rewrite <- Hdom, Hd; vm_compute; discriminate).
  rewrite Hdispatch, <- Hdom, <- Huri, Hd, Hu. reflexivity.
Defined.

(** The URL the serialiser writes, taken apart. *)
Section DeliveredUrlFacts.

Implicit Types (rest host tail : jsstring) (c : N).








End DeliveredUrlFacts.




(** C3. When no handler is registered under the parsed domain, the
    interceptor answers 404 [Not Found] with the header
    [Content-Type: text/plain] and the body [No handler for ] followed by
    the request URI as it was received. *)
Theorem C3_no_handler_response this req :
  _domainRegistry this !! request_domain req = None ->
  exists resp,
    handle_request this req = Normal resp /\
    status resp = 404 /\
    statusText resp = lit "Not Found" /\
    headers resp = [(lit "Content-Type", lit "text/plain")] /\
    get_header (lit "Content-Type") (headers resp) = Some (lit "text/plain") /\
    body resp = BodyText (lit "No handler for " ++ url req).
Proof.
  intros Hnone. exists (no_handler_response req).
  rewrite handle_request_dispatch, Hnone. repeat split.
Qed.

Lemma C3_no_handler_response_witness :
  _domainRegistry (new_AkariProtocolMain sample_mime)
    !! request_domain (sample_request (lit "akari://riot-client/v1/x")) = None /\
  exists resp,
    handle_request (new_AkariProtocolMain sample_mime)
      (sample_request (lit "akari://riot-client/v1/x")) = Normal resp /\
    status resp = 404 /\
    statusText resp = lit "Not Found" /\
    headers resp = [(lit "Content-Type", lit "text/plain")] /\
    get_header (lit "Content-Type") (headers resp) = Some (lit "text/plain") /\
    body resp = BodyText (lit "No handler for akari://riot-client/v1/x").
Proof.
  split; [reflexivity|].
  apply (C3_no_handler_response (new_AkariProtocolMain sample_mime)
           (sample_request (lit "akari://riot-client/v1/x"))).
  reflexivity.
Defined.

(** ** The domain registry *)

Section RegistryFacts.

Implicit Types (this : AkariProtocolMain) (domain d : jsstring).
Implicit Types (handler h : Handler).

Lemma registerDomain_absent domain handler this :
  lookup_domain this domain = None ->
  registerDomain domain handler this
  = (Normal tt, with_handler domain handler this).
Proof.
  unfold lookup_domain. intros Hnone.
  unfold registerDomain, bind, registry_has. rewrite Hnone.
  rewrite bool_decide_eq_false_2 by (by intros [? ?]). reflexivity.
Qed.

Lemma registerDomain_present domain handler h this :
  lookup_domain this domain = Some h ->
  registerDomain domain handler this
  = (Throw (already_registered domain), this).
Proof.
  unfold lookup_domain. intros Hsome.
  unfold registerDomain, bind, registry_has. rewrite Hsome.
  rewrite bool_decide_eq_true_2 by eauto. reflexivity.
Qed.

Lemma unregisterDomain_absent domain this :
  lookup_domain this domain = None ->
  unregisterDomain domain this = (Throw (not_registered domain), this).
Proof.
  unfold lookup_domain. intros Hnone.
  unfold unregisterDomain, bind, registry_has. rewrite Hnone.
  rewrite bool_decide_eq_false_2 by (by intros [? ?]). reflexivity.
Qed.

Lemma unregisterDomain_present domain h this :
  lookup_domain this domain = Some h ->
  unregisterDomain domain this = (Normal tt, without_handler domain this).
Proof.
  unfold lookup_domain. intros Hsome.
  unfold unregisterDomain, bind, registry_has. rewrite Hsome.
  rewrite bool_decide_eq_true_2 by eauto. reflexivity.
Qed.

Lemma lookup_with_handler_eq domain handler this :
  lookup_domain (with_handler domain handler this) domain = Some handler.
Proof. unfold lookup_domain, with_handler. simpl. apply lookup_insert_eq. Qed.

Lemma lookup_with_handler_ne domain d handler this :
  d <> domain ->
  lookup_domain (with_handler domain handler this) d = lookup_domain this d.
Proof.
  intros Hne. unfold lookup_domain, with_handler. simpl.
  by apply lookup_insert_ne.
Qed.

Lemma lookup_without_handler_eq domain this :
  lookup_domain (without_handler domain this) domain = None.
Proof. unfold lookup_domain, without_handler. simpl. apply lookup_delete_eq. Qed.

Lemma lookup_without_handler_ne domain d this :
  d <> domain ->
  lookup_domain (without_handler domain this) d = lookup_domain this d.
Proof.
  intros Hne. unfold lookup_domain, without_handler. simpl.
  by apply lookup_delete_ne.
Qed.

(** Deleting a key just set on a registry that lacked it gives the
    registry back. *)
Lemma without_with_handler domain handler this :
  lookup_domain this domain = None ->
  without_handler domain (with_handler domain handler this) = this.
Proof.
  unfold lookup_domain, without_handler, with_handler. intros Hnone.
  destruct this as [reg mime]. simpl in *. f_equal.
  rewrite delete_insert_eq. by apply delete_id.
Qed.

(** A key present after a series of calls was present before it or was
    given to a [registerDomain] call of the series. *)
Lemma after_calls_key cs this d :
  is_Some (lookup_domain (after_calls cs this) d) ->
  is_Some (lookup_domain this d) \/
  exists handler, CallRegister d handler ∈ cs.
Proof.
  revert this. induction cs as [|c cs IH]; intros this Hd; [by left|].
  cbn [after_calls fold_left] in Hd. apply IH in Hd as [Hd|[h Hin]].
  - destruct c as [domain handler|domain]; cbn [call] in Hd.
    + destruct (lookup_domain this domain) as [h0|] eqn:Hlk.
      * rewrite (registerDomain_present _ _ _ _ Hlk) in Hd. by left.
      * rewrite (registerDomain_absent _ handler _ Hlk) in Hd. simpl in Hd.
        destruct (decide (d = domain)) as [->|Hne].
        -- right. exists handler. apply elem_of_cons. by left.
        -- rewrite lookup_with_handler_ne in Hd by done. by left.
    + destruct (lookup_domain this domain) as [h0|] eqn:Hlk.
      * rewrite (unregisterDomain_present _ _ _ Hlk) in Hd. simpl in Hd.
        destruct (decide (d = domain)) as [->|Hne].
        -- rewrite lookup_without_handler_eq in Hd. by destruct Hd.
        -- rewrite lookup_without_handler_ne in Hd by done. by left.
      * rewrite (unregisterDomain_absent _ _ Hlk) in Hd. by left.
  - right. exists h. apply elem_of_cons. by right.
Qed.

End RegistryFacts.

(** C4. When [d] is not in the registry, [registerDomain d h] returns
    normally, afterwards the lookup of [d] gives [h], every other domain
    and the rest of the instance are as before, and a second
    [registerDomain d h2] throws.  When [d] is in the registry with [h],
    [registerDomain d h2] throws [Domain d is already registered] and
    leaves the instance as it was, so the lookup of [d] still gives [h]. *)
Theorem C4_register_fresh_or_duplicate this d (h h2 : Handler) :
  (lookup_domain this d = None ->
   exists this',
     registerDomain d h this = (Normal tt, this') /\
     lookup_domain this' d = Some h /\
     (forall d', d' <> d -> lookup_domain this' d' = lookup_domain this d') /\
     _mime this' = _mime this /\
     registerDomain d h2 this' = (Throw (already_registered d), this')) /\
  (lookup_domain this d = Some h ->
   registerDomain d h2 this = (Throw (already_registered d), this) /\
   message (already_registered d)
   = lit "Domain " ++ d ++ lit " is already registered" /\
   lookup_domain (snd (registerDomain d h2 this)) d = Some h).
Proof.
  split.
  - intros Hnone. exists (with_handler d h this).
    split; [by apply registerDomain_absent|].
    split; [apply lookup_with_handler_eq|].
    split; [intros d' Hne; by apply lookup_with_handler_ne|].
    split; [reflexivity|].
    apply (registerDomain_present d h2 h). apply lookup_with_handler_eq.
  - intros Hsome. rewrite (registerDomain_present d h2 h this Hsome).
    repeat split. exact Hsome.
Qed.

Lemma C4_register_fresh_or_duplicate_witness :
  lookup_domain (new_AkariProtocolMain sample_mime) (lit "league-client") = None /\
  lookup_domain
    (with_handler (lit "league-client") (sample_handler (lit "first:"))
       (new_AkariProtocolMain sample_mime))
    (lit "league-client") = Some (sample_handler (lit "first:")) /\
  (exists this',
     registerDomain (lit "league-client") (sample_handler (lit "first:"))
       (new_AkariProtocolMain sample_mime) = (Normal tt, this') /\
     lookup_domain this' (lit "league-client")
     = Some (sample_handler (lit "first:"))) /\
  registerDomain (lit "league-client") (sample_handler (lit "second:"))
    (with_handler (lit "league-client") (sample_handler (lit "first:"))
       (new_AkariProtocolMain sample_mime))
  = (Throw (already_registered (lit "league-client")),
     with_handler (lit "league-client") (sample_handler (lit "first:"))
       (new_AkariProtocolMain sample_mime)).
Proof.
  assert (Hnone : lookup_domain (new_AkariProtocolMain sample_mime)
                    (lit "league-client") = None) by reflexivity.
  assert (Hsome : lookup_domain
            (with_handler (lit "league-client") (sample_handler (lit "first:"))
               (new_AkariProtocolMain sample_mime))
            (lit "league-client") = Some (sample_handler (lit "first:")))
    by reflexivity.
  split; [exact Hnone|]. split; [exact Hsome|]. split.
  - destruct (proj1 (C4_register_fresh_or_duplicate
                       (new_AkariProtocolMain sample_mime) (lit "league-client")
                       (sample_handler (lit "first:"))
                       (sample_handler (lit "second:"))) Hnone)
      as (this' & Hreg & Hlk & _).
    exists this'. split; [exact Hreg|exact Hlk].
  - exact (proj1 (proj2 (C4_register_fresh_or_duplicate _ _ _
                           (sample_handler (lit "second:"))) Hsome)).
Defined.

(** C5. When [d] is not in the registry, [unregisterDomain d] throws
    [Domain d is not registered] and the instance, hence every entry of
    the registry, is as before.  When [d] is in the registry, the call
    returns normally, [d] is no longer there and every other domain looks
    up as before. *)
Theorem C5_unregister_unknown_or_present this d :
  (lookup_domain this d = None ->
   unregisterDomain d this = (Throw (not_registered d), this) /\
   message (not_registered d) = lit "Domain " ++ d ++ lit " is not registered" /\
   _domainRegistry (snd (unregisterDomain d this)) = _domainRegistry this) /\
  (forall h, lookup_domain this d = Some h ->
   exists this',
     unregisterDomain d this = (Normal tt, this') /\
     lookup_domain this' d = None /\
     (forall d', d' <> d -> lookup_domain this' d' = lookup_domain this d') /\
     _mime this' = _mime this).
Proof.
  split.
  - intros Hnone. rewrite (unregisterDomain_absent d this Hnone). repeat split.
  - intros h Hsome. exists (without_handler d this).
    split; [by apply (unregisterDomain_present d h)|].
    split; [apply lookup_without_handler_eq|].
    split; [intros d' Hne; by apply lookup_without_handler_ne|reflexivity].
Qed.

Lemma C5_unregister_unknown_or_present_witness :
  lookup_domain (new_AkariProtocolMain sample_mime) (lit "riot-client") = None /\
  unregisterDomain (lit "riot-client") (new_AkariProtocolMain sample_mime)
  = (Throw (not_registered (lit "riot-client")), new_AkariProtocolMain sample_mime) /\
  lookup_domain
    (with_handler (lit "riot-client") (sample_handler (lit "rc:"))
       (new_AkariProtocolMain sample_mime))
    (lit "riot-client") = Some (sample_handler (lit "rc:")) /\
  exists this',
    unregisterDomain (lit "riot-client")
      (with_handler (lit "riot-client") (sample_handler (lit "rc:"))
         (new_AkariProtocolMain sample_mime)) = (Normal tt, this') /\
    lookup_domain this' (lit "riot-client") = None.
Proof.
  assert (Hnone : lookup_domain (new_AkariProtocolMain sample_mime)
                    (lit "riot-client") = None) by reflexivity.
  assert (Hsome : lookup_domain
            (with_handler (lit "riot-client") (sample_handler (lit "rc:"))
               (new_AkariProtocolMain sample_mime))
            (lit "riot-client") = Some (sample_handler (lit "rc:")))
    by reflexivity.
  split; [exact Hnone|]. split.
  - exact (proj1 (proj1 (C5_unregister_unknown_or_present _ _) Hnone)).
  - split; [exact Hsome|].
    destruct (proj2 (C5_unregister_unknown_or_present _ _) _ Hsome)
      as (this' & Hun & Hlk & _).
    exists this'. split; [exact Hun|exact Hlk].
Defined.

(** C9, as the source has it.  [registerDomain] makes no test on the
    domain but [has]: the empty string is registered like any other name,
    and after that one call the registry holds an entry whose key is the
    empty string. *)
Lemma C9_empty_domain_is_registered :
  registerDomain (lit "") (sample_handler (lit "root:"))
    (new_AkariProtocolMain sample_mime)
  = (Normal tt,
     with_handler (lit "") (sample_handler (lit "root:"))
       (new_AkariProtocolMain sample_mime)) /\
  lookup_domain
    (after_calls [CallRegister (lit "") (sample_handler (lit "root:"))]
       (new_AkariProtocolMain sample_mime))
    (lit "")
  = Some (sample_handler (lit "root:")).
Proof. split; reflexivity. Qed.

(** C9, amended.  After any series of register and unregister calls on a
    new instance, every key the registry holds is a string some
    [registerDomain] call of the series was given; the empty string is not
    set apart: when it is not in the registry, registering it returns
    normally and leaves an entry under the empty string. *)
Theorem C9_keys_are_the_registered_names mime cs :
  (forall d,
     is_Some (lookup_domain (after_calls cs (new_AkariProtocolMain mime)) d) ->
     exists handler, CallRegister d handler ∈ cs) /\
  (forall h : Handler,
     lookup_domain (after_calls cs (new_AkariProtocolMain mime)) (lit "") = None ->
     registerDomain (lit "") h (after_calls cs (new_AkariProtocolMain mime))
     = (Normal tt, with_handler (lit "") h (after_calls cs (new_AkariProtocolMain mime))) /\
     lookup_domain
       (after_calls (cs ++ [CallRegister (lit "") h]) (new_AkariProtocolMain mime))
       (lit "")
     = Some h).
Proof.
  split.
  - intros d Hd. apply after_calls_key in Hd as [Hd|Hd]; [|done].
    unfold lookup_domain in Hd. simpl in Hd. rewrite lookup_empty in Hd.
    by destruct Hd.
  - intros h Hnone. split; [by apply registerDomain_absent|].
    unfold after_calls. rewrite fold_left_app. cbn [fold_left call].
    fold (after_calls cs (new_AkariProtocolMain mime)).
    rewrite (registerDomain_absent _ h _ Hnone). apply lookup_with_handler_eq.
Qed.

Lemma C9_keys_are_the_registered_names_witness :
  is_Some (lookup_domain
             (after_calls [CallRegister (lit "a") (sample_handler (lit "a:"));
                           CallUnregister (lit "b");
                           CallRegister (lit "b") (sample_handler (lit "b:"));
                           CallUnregister (lit "a")]
                (new_AkariProtocolMain sample_mime)) (lit "b")) /\
  lookup_domain
    (after_calls [CallRegister (lit "a") (sample_handler (lit "a:"));
                  CallUnregister (lit "b");
                  CallRegister (lit "b") (sample_handler (lit "b:"));
                  CallUnregister (lit "a")]
       (new_AkariProtocolMain sample_mime)) (lit "") = None /\
  lookup_domain
    (after_calls ([CallRegister (lit "a") (sample_handler (lit "a:"));
                   CallUnregister (lit "b");
                   CallRegister (lit "b") (sample_handler (lit "b:"));
                   CallUnregister (lit "a")]
                  ++ [CallRegister (lit "") (sample_handler (lit "root:"))])
       (new_AkariProtocolMain sample_mime)) (lit "")
  = Some (sample_handler (lit "root:")).
Proof.
  split; [by eexists|]. split; [reflexivity|].
  apply (proj2 (C9_keys_are_the_registered_names sample_mime
                  [CallRegister (lit "a") (sample_handler (lit "a:"));
                   CallUnregister (lit "b");
                   CallRegister (lit "b") (sample_handler (lit "b:"));
                   CallUnregister (lit "a")])
           (sample_handler (lit "root:"))).
  reflexivity.
Defined.

(** C10. When [d] is not in the registry, [registerDomain d h] followed
    by [unregisterDomain d] both return normally and leave the instance
    exactly as it was, so every lookup agrees with the one before; a
    further [registerDomain d h2] returns normally and stores [h2]. *)
Theorem C10_register_unregister_restores this d (h h2 : Handler) :
  lookup_domain this d = None ->
  registerDomain d h this = (Normal tt, with_handler d h this) /\
  unregisterDomain d (with_handler d h this) = (Normal tt, this) /\
  (registerDomain d h >>> unregisterDomain d) this = (Normal tt, this) /\
  (forall d',
     lookup_domain (snd ((registerDomain d h >>> unregisterDomain d) this)) d'
     = lookup_domain this d') /\
  exists this',
    (registerDomain d h >>> unregisterDomain d >>> registerDomain d h2) this
    = (Normal tt, this') /\
    lookup_domain this' d = Some h2.
Proof.
  intros Hnone.
  assert (Hreg : registerDomain d h this = (Normal tt, with_handler d h this))
    by (by apply registerDomain_absent).
  assert (Hun : unregisterDomain d (with_handler d h this) = (Normal tt, this)).
  { rewrite (unregisterDomain_present d h) by apply lookup_with_handler_eq.
    by rewrite without_with_handler. }
  assert (Hboth : (registerDomain d h >>> unregisterDomain d) this
                  = (Normal tt, this)).
  { unfold and_then, bind at 1. by rewrite Hreg. }
  split; [done|]. split; [done|]. split; [done|].
  split; [intros d'; by rewrite Hboth|].
  exists (with_handler d h2 this). split; [|apply lookup_with_handler_eq].
  unfold and_then, bind at 1. rewrite Hreg.
  unfold bind at 1. rewrite Hun. by apply registerDomain_absent.
Qed.

Lemma C10_register_unregister_restores_witness :
  lookup_domain
    (with_handler (lit "league-client") (sample_handler (lit "lc:"))
       (new_AkariProtocolMain sample_mime)) (lit "file") = None /\
  (registerDomain (lit "file") (sample_handler (lit "one:"))
     >>> unregisterDomain (lit "file"))
    (with_handler (lit "league-client") (sample_handler (lit "lc:"))
       (new_AkariProtocolMain sample_mime))
  = (Normal tt,
     with_handler (lit "league-client") (sample_handler (lit "lc:"))
       (new_AkariProtocolMain sample_mime)).
Proof.
  split; [reflexivity|].
  apply (C10_register_unregister_restores _ _ _ (sample_handler (lit "two:"))).
  reflexivity.
Defined.

(** ** The local file responder *)

(** Reads a header off a literal header list. *)
Ltac header_lookup :=
  cbn [headers new_Response init_headers get_header];
  repeat first
    [ rewrite decide_True by reflexivity
    | rewrite decide_False by (vm_compute; discriminate) ];
  try reflexivity.

Section FileResponderFacts.

Implicit Types (this : AkariProtocolMain) (host : Host) (uri : jsstring).



Lemma response_of_directory this host uri stats :
  accessible host (path_resolve host uri) stats ->
  isDirectory stats = true ->
  _toLocalFileResponse this host uri
  = new_Response (BodyText (lit "Cannot read directory: " ++ uri))
      {| init_status := Some 403;
         init_statusText := None;
         init_headers := text_plain |}.
Proof.
  intros [Hacc Hstat] Hdir. unfold _toLocalFileResponse.
  rewrite Hacc, Hstat. simpl. by rewrite Hdir.
Qed.

Lemma response_of_file this host uri stats :
  accessible host (path_resolve host uri) stats ->
  isDirectory stats = false ->
  _toLocalFileResponse this host uri
  = new_Response (BodyStream (createReadStream (path_resolve host uri)))
      {| init_status := None;
         init_statusText := None;
         init_headers :=
           [ (lit "Access-Control-Allow-Origin", lit "*");
             (lit "Connection", lit "keep-alive");
             (lit "Content-Type",
               or_else (getType (_mime this) (path_resolve host uri))
                       (lit "application/octet-stream"));
             (lit "Cache-Control", lit "no-cache");
             (lit "Content-Length", Number_toString (size stats));
             (lit "Date", date_toUTCString host) ] |}.
Proof.
  intros [Hacc Hstat] Hdir. unfold _toLocalFileResponse.
  rewrite Hacc, Hstat. simpl. by rewrite Hdir.
Qed.

Lemma response_of_failure this host uri error :
  access_fails host (path_resolve host uri) error ->
  _toLocalFileResponse this host uri
  = new_Response (BodyText (message error))
      {| init_status :=
           Some (if decide (code error = Some (lit "ENOENT")) then 404
                 else if decide (code error = Some (lit "EACCES")) then 403
                 else 500);
         init_statusText := None;
         init_headers := text_plain |}.
Proof.
  intros Hfail. unfold _toLocalFileResponse.
  destruct Hfail as [Hacc|[Hacc Hstat]].
  - rewrite Hacc. simpl. repeat case_decide; reflexivity.
  - rewrite Hacc, Hstat. simpl. repeat case_decide; reflexivity.
Qed.






End FileResponderFacts.

(** C6. When the resolved path passes the access check and is a
    directory, the responder answers 403 with a text body (no stream, so
    no listing) and [Content-Type: text/plain].  When the access check or
    [stat] rejects, it answers 404 if the error's code is [ENOENT], 403 if
    it is [EACCES] and 500 otherwise, and in each case the body is the
    error's message and the content type [text/plain]. *)
Theorem C6_directory_and_failure_responses this host uri :
  (forall stats,
     accessible host (path_resolve host uri) stats ->
     kind stats = Directory ->
     status (_toLocalFileResponse this host uri) = 403 /\
     body (_toLocalFileResponse this host uri)
     = BodyText (lit "Cannot read directory: " ++ uri) /\
     headers (_toLocalFileResponse this host uri)
     = [(lit "Content-Type", lit "text/plain")]) /\
  (forall error,
     access_fails host (path_resolve host uri) error ->
     body (_toLocalFileResponse this host uri) = BodyText (message error) /\
     headers (_toLocalFileResponse this host uri)
     = [(lit "Content-Type", lit "text/plain")] /\
     (code error = Some (lit "ENOENT") ->
      status (_toLocalFileResponse this host uri) = 404) /\
     (code error = Some (lit "EACCES") ->
      status (_toLocalFileResponse this host uri) = 403) /\
     (code error <> Some (lit "ENOENT") ->
      code error <> Some (lit "EACCES") ->
      status (_toLocalFileResponse this host uri) = 500)).
Proof.
  split.
  - intros stats Hacc Hkind.
    rewrite (response_of_directory this host uri stats Hacc)
      by (unfold isDirectory; by rewrite Hkind).
    repeat split.
  - intros error Hfail.
    rewrite (response_of_failure this host uri error Hfail).
    split; [reflexivity|]. split; [reflexivity|]. cbn [status new_Response default init_status].
    split; [|split].
    + intros Hcode. by rewrite decide_True.
    + intros Hcode. rewrite decide_False, decide_True; [done..|].
      rewrite Hcode. discriminate.
    + intros Hne1 Hne2. by rewrite !decide_False.
Qed.

Lemma C6_directory_and_failure_responses_witness :
  accessible sample_host (path_resolve sample_host (lit "dir"))
    {| kind := Directory; st_size := 4096 |} /\
  status (_toLocalFileResponse (new_AkariProtocolMain sample_mime) sample_host (lit "dir"))
  = 403 /\
  access_fails sample_host (path_resolve sample_host (lit "missing"))
    (system_error "ENOENT" "ENOENT: no such file or directory, access '/srv/missing'") /\
  status (_toLocalFileResponse (new_AkariProtocolMain sample_mime) sample_host (lit "missing"))
  = 404 /\
  access_fails sample_host (path_resolve sample_host (lit "secret"))
    (system_error "EACCES" "EACCES: permission denied, access '/srv/secret'") /\
  status (_toLocalFileResponse (new_AkariProtocolMain sample_mime) sample_host (lit "secret"))
  = 403 /\
  access_fails sample_host (path_resolve sample_host (lit "loop"))
    (system_error "ELOOP" "ELOOP: too many symbolic links encountered, access '/srv/loop'") /\
  status (_toLocalFileResponse (new_AkariProtocolMain sample_mime) sample_host (lit "loop"))
  = 500 /\
  access_fails sample_host (path_resolve sample_host (lit "gone"))
    (system_error "ENOENT" "ENOENT: no such file or directory, stat '/srv/gone'") /\
  body (_toLocalFileResponse (new_AkariProtocolMain sample_mime) sample_host (lit "gone"))
  = BodyText (lit "ENOENT: no such file or directory, stat '/srv/gone'").
Proof.
  assert (Hdir : accessible sample_host (path_resolve sample_host (lit "dir"))
                   {| kind := Directory; st_size := 4096 |})
    by (split; reflexivity).
  assert (Hmissing : access_fails sample_host (path_resolve sample_host (lit "missing"))
            (system_error "ENOENT" "ENOENT: no such file or directory, access '/srv/missing'"))
    by (left; reflexivity).
  assert (Hsecret : access_fails sample_host (path_resolve sample_host (lit "secret"))
            (system_error "EACCES" "EACCES: permission denied, access '/srv/secret'"))
    by (left; reflexivity).
  assert (Hloop : access_fails sample_host (path_resolve sample_host (lit "loop"))
            (system_error "ELOOP" "ELOOP: too many symbolic links encountered, access '/srv/loop'"))
    by (left; reflexivity).
  assert (Hgone : access_fails sample_host (path_resolve sample_host (lit "gone"))
            (system_error "ENOENT" "ENOENT: no such file or directory, stat '/srv/gone'"))
    by (right; split; reflexivity).
  split; [exact Hdir|]. split.
  { apply (proj1 (C6_directory_and_failure_responses _ _ _) _ Hdir). reflexivity. }
  split; [exact Hmissing|]. split.
  { apply (proj2 (C6_directory_and_failure_responses _ _ _) _ Hmissing). reflexivity. }
  split; [exact Hsecret|]. split.
  { apply (proj2 (C6_directory_and_failure_responses _ _ _) _ Hsecret). reflexivity. }
  split; [exact Hloop|]. split.
  { apply (proj2 (C6_directory_and_failure_responses _ _ _) _ Hloop); discriminate. }
  split; [exact Hgone|].
  apply (proj2 (C6_directory_and_failure_responses _ _ _) _ Hgone).
Defined.




(** ** The stream bridge *)

Section StreamAdapterFacts.

Context {Chunk : Type}.
Implicit Types (chunks : list Chunk) (demand extra : nat).

(** While chunks are queued, each [next()] yields the one at the front. *)
Lemma generator_next_chunk (value : Chunk) chunks (e : StreamEnding) :
  generator_next
    (Suspended (getReader {| queued := value :: chunks; ending := e |}))
  = Some (IterValue value,
          Suspended (getReader {| queued := chunks; ending := e |})).
Proof. reflexivity. Qed.

(** Once the reader reports done, the generator completes. *)
Lemma generator_next_done :
  generator_next
    (Suspended (getReader {| queued := @nil Chunk; ending := Closes |}))
  = Some (IterDone, Completed).
Proof. reflexivity. Qed.

(** A consumer that asks for more than the queued chunks gets them all,
    then the end. *)
Lemma drive_closing chunks extra :
  drive (S (List.length chunks + extra))
    (Suspended (getReader {| queued := chunks; ending := Closes |}))
  = map Push chunks ++ [End_].
Proof.
  induction chunks as [|value chunks IH]; [reflexivity|].
  cbn [List.length Nat.add drive].
  rewrite generator_next_chunk. cbn [map app]. f_equal. exact IH.
Qed.

(** A consumer that asks for no more than the queued chunks gets that
    many and no end yet. *)
Lemma drive_prefix chunks (e : StreamEnding) demand :
  (demand <= List.length chunks)%nat ->
  drive demand (Suspended (getReader {| queued := chunks; ending := e |}))
  = map Push (take demand chunks).
Proof.
  revert chunks. induction demand as [|demand IH]; intros chunks Hle.
  - by rewrite take_0.
  - destruct chunks as [|value chunks]; [simpl in Hle; lia|].
    cbn [drive]. rewrite generator_next_chunk.
    cbn [take map]. f_equal. apply IH. simpl in Hle. lia.
Qed.

Lemma pushed_map_Push chunks (evs : list (@StreamEvent Chunk)) :
  pushed (map Push chunks ++ evs) = chunks ++ pushed evs.
Proof. induction chunks as [|c chunks IH]; [done|]. simpl. by rewrite <- IH. Qed.

Lemma ends_map_Push chunks (evs : list (@StreamEvent Chunk)) :
  ends (map Push chunks ++ evs) = ends evs.
Proof. induction chunks as [|c chunks IH]; [done|]. exact IH. Qed.

End StreamAdapterFacts.

(** C8. For a web stream that delivers the chunks [chunks] and then
    reports done, the Node stream made by [convertWebStreamToNodeStream],
    read to its end, hands over exactly [chunks], each once and in order,
    followed by one end signal and nothing after it, however much further
    the consumer reads; a consumer that has read only [n] chunks has seen
    the first [n] and no end signal. *)
Theorem C8_stream_bridge_round_trip {Chunk : Type} (chunks : list Chunk)
    (extra : nat) :
  emitted (convertWebStreamToNodeStream {| queued := chunks; ending := Closes |})
    (S (List.length chunks + extra))
  = map Push chunks ++ [End_] /\
  pushed (emitted (convertWebStreamToNodeStream {| queued := chunks; ending := Closes |})
            (S (List.length chunks + extra))) = chunks /\
  ends (emitted (convertWebStreamToNodeStream {| queued := chunks; ending := Closes |})
          (S (List.length chunks + extra))) = 1%nat /\
  last (emitted (convertWebStreamToNodeStream {| queued := chunks; ending := Closes |})
          (S (List.length chunks + extra))) = Some End_ /\
  (forall n, (n <= List.length chunks)%nat ->
     emitted (convertWebStreamToNodeStream {| queued := chunks; ending := Closes |}) n
     = map Push (take n chunks) /\
     ends (emitted (convertWebStreamToNodeStream {| queued := chunks; ending := Closes |}) n)
     = 0%nat).
Proof.
  unfold emitted, convertWebStreamToNodeStream. cbn [iterator].
  rewrite drive_closing.
  split; [reflexivity|].
  split; [rewrite pushed_map_Push; apply app_nil_r|].
  split; [by rewrite ends_map_Push|].
  split; [apply last_snoc|].
  intros n Hn. rewrite drive_prefix by done.
  split; [reflexivity|].
  rewrite <- (app_nil_r (map Push (take n chunks))). by rewrite ends_map_Push.
Qed.

(** * Further properties *)

(** ** The interceptor on every request *)

Section InterceptorEveryRequest.

Implicit Types (this : AkariProtocolMain) (req : Request).
Implicit Types (s rest before after domain uri : jsstring).

Lemma elem_of_trim s c : c ∈ trim s -> c ∈ s.
Proof.
  intros Hin. destruct (trim_spec s) as (l & r & Heq & _).
  rewrite Heq. apply elem_of_app. right. apply elem_of_app. by left.
Qed.

(** The parse in terms of [path1], whatever the first eight code units of
    the URL were. *)
Lemma parse_path1_slash req before after :
  request_path1 req = before ++ lit "/" ++ after ->
  SOLIDUS ∉ before ->
  request_domain req = trim before /\ request_uri req = trim after.
Proof.
  intros Hpath Hnotin. unfold request_domain, request_uri, request_index.
  rewrite Hpath.
  rewrite (indexOf_first SOLIDUS before after Hnotin
           : indexOf (before ++ lit "/" ++ after) (lit "/") = _).
  rewrite slice_to, slice_from by lia. split; f_equal.
  - rewrite Nat2Z.id. by rewrite take_app_length.
  - replace (Z.to_nat (Z.of_nat (List.length before) + 1))
      with (List.length before + 1)%nat by lia.
    rewrite <- drop_drop, drop_app_length. reflexivity.
Qed.

Lemma parse_path1_no_slash req :
  SOLIDUS ∉ request_path1 req ->
  request_domain req
  = trim (take (List.length (request_path1 req) - 1) (request_path1 req)) /\
  request_uri req = trim (request_path1 req).
Proof.
  intros Hnotin. unfold request_domain, request_uri, request_index.
  rewrite (indexOf_absent SOLIDUS _ Hnotin
           : indexOf (request_path1 req) (lit "/") = _).
  rewrite slice_to_minus_one. split; [done|]. by rewrite slice_from.
Qed.

Lemma request_domain_no_slash req : SOLIDUS ∉ request_domain req.
Proof.
  destruct (decide (SOLIDUS ∈ request_path1 req)) as [Hin|Hnotin].
  - apply list_elem_of_split_l in Hin as (before & after & Hpath & Hnotin).
    destruct (parse_path1_slash req before after Hpath Hnotin) as [-> _].
    intros Hin. by apply Hnotin, elem_of_trim.
  - destruct (parse_path1_no_slash req Hnotin) as [-> _].
    intros Hin. apply Hnotin. apply elem_of_trim in Hin.
    by apply elem_of_take in Hin as (i & Hi & _); apply list_elem_of_lookup_2 in Hi.
Qed.

Lemma request_domain_trimmed req : no_outer_white_space (request_domain req).
Proof.
  unfold request_domain.
  destruct (trim_spec (slice (request_path1 req) 0 (Some (request_index req))))
    as (_ & _ & _ & _ & _ & H). exact H.
Qed.

Lemma request_uri_trimmed req : no_outer_white_space (request_uri req).
Proof.
  unfold request_uri.
  destruct (trim_spec (slice (request_path1 req) (request_index req + 1) None))
    as (_ & _ & _ & _ & _ & H). exact H.
Qed.

End InterceptorEveryRequest.

(** X1. Whatever the URL of the request, the domain the interceptor looks
    up holds no ['/'] and has no white space at either end, and the
    remainder it hands to the handler has no white space at either end. *)
Theorem X1_parsed_parts_shape req :
  (SOLIDUS ∉ request_domain req) /\
  no_outer_white_space (request_domain req) /\
  no_outer_white_space (request_uri req).
Proof.
  split; [apply request_domain_no_slash|].
  split; [apply request_domain_trimmed|apply request_uri_trimmed].
Qed.

(** X2. [registerDomain] accepts a name that holds a ['/'] or has white
    space at an end, but no request ever selects it: whether the call
    returns or throws, every request is answered as before the call. *)
Theorem X2_unreachable_name_never_served this domain (handler : Handler) req :
  unreachable_name domain ->
  handle_request (snd (registerDomain domain handler this)) req
  = handle_request this req.
Proof.
  intros Hunreachable.
  destruct (lookup_domain this domain) as [h0|] eqn:Hlk.
  - by rewrite (registerDomain_present _ _ _ _ Hlk).
  - rewrite (registerDomain_absent _ handler _ Hlk). cbn [snd].
    apply handle_request_with_handler_ne. intros ->.
    destruct Hunreachable as [Hslash|Hspace].
    + by apply (request_domain_no_slash req).
    + apply Hspace, request_domain_trimmed.
Qed.

Lemma X2_unreachable_name_never_served_witness :
  unreachable_name (lit "league/client") /\
  unreachable_name (lit "files ") /\
  handle_request
    (snd (registerDomain (lit "league/client") (sample_handler (lit "lc:"))
            (new_AkariProtocolMain sample_mime)))
    (sample_request (lit "akari://league/client/x"))
  = Normal (no_handler_response (sample_request (lit "akari://league/client/x"))) /\
  handle_request
    (snd (registerDomain (lit "files ") (sample_handler (lit "f:"))
            (new_AkariProtocolMain sample_mime)))
    (sample_request (lit "akari://files /x"))
  = Normal (no_handler_response (sample_request (lit "akari://files /x"))).
Proof.
  assert (H1 : unreachable_name (lit "league/client"))
    by (left; apply (bool_decide_unpack _); vm_compute; exact I).
  assert (H2 : unreachable_name (lit "files ")).
  { right. intros [_ Hlast]. specialize (Hlast 32%N eq_refl). discriminate Hlast. }
  split; [exact H1|]. split; [exact H2|]. split.
  - rewrite (X2_unreachable_name_never_served _ _ _ _ H1). reflexivity.
  - rewrite (X2_unreachable_name_never_served _ _ _ _ H2). reflexivity.
Defined.

(** X3. The interceptor drops the first eight code units of the URL
    without looking at them: a URL made of any eight code units followed
    by [rest] is parsed like [akari://rest].  A URL of at most eight code
    units gives the empty domain and the empty remainder, and is answered
    by the handler stored under the empty name, or by the 404 response
    when there is none. *)
Theorem X3_scheme_prefix_not_examined this req :
  (forall prefix rest req',
     url req = prefix ++ rest -> List.length prefix = 8%nat ->
     akari_request rest req' ->
     request_path1 req = rest /\
     request_domain req = request_domain req' /\
     request_uri req = request_uri req') /\
  ((List.length (url req) <= 8)%nat ->
   request_domain req = lit "" /\
   request_uri req = lit "" /\
   handle_request this req =
     match lookup_domain this (lit "") with
     | Some handler => handler (lit "") req
     | None => Normal (no_handler_response req)
     end).
Proof.
  split.
  - intros prefix rest req' Hurl Hlen Hreq'.
    assert (Hpath : request_path1 req = rest).
    { unfold request_path1. rewrite Hurl.
      rewrite slice_from by (unfold str_length; lia).
      change (Z.to_nat (str_length (AKARI_PROXY_PROTOCOL ++ lit "://")))
        with 8%nat.
      rewrite <- Hlen. apply drop_app_length. }
    pose proof (request_path1_akari rest req' Hreq') as Hpath'.
    split; [exact Hpath|].
    unfold request_domain, request_uri, request_index.
    by rewrite Hpath, Hpath'.
  - intros Hshort.
    assert (Hpath : request_path1 req = []).
    { unfold request_path1. rewrite slice_from by (unfold str_length; lia).
      apply drop_ge.
      change (Z.to_nat (str_length (AKARI_PROXY_PROTOCOL ++ lit "://")))
        with 8%nat. exact Hshort. }
    assert (Hdom : request_domain req = []).
    { unfold request_domain, request_index. by rewrite Hpath. }
    assert (Huri : request_uri req = []).
    { unfold request_uri, request_index. by rewrite Hpath. }
    split; [exact Hdom|]. split; [exact Huri|].
    rewrite handle_request_dispatch. unfold lookup_domain.
    by rewrite Hdom, Huri.
Qed.

Lemma X3_scheme_prefix_not_examined_witness :
  url (sample_request (lit "AKARI:\\files/a b")) = lit "AKARI:\\" ++ lit "files/a b" /\
  List.length (lit "AKARI:\\") = 8%nat /\
  akari_request (lit "files/a b") (sample_request (lit "akari://files/a b")) /\
  request_domain (sample_request (lit "AKARI:\\files/a b"))
  = request_domain (sample_request (lit "akari://files/a b")) /\
  (List.length (url (sample_request (lit "akari:"))) <= 8)%nat /\
  request_domain (sample_request (lit "akari:")) = lit "".
Proof.
  split; [reflexivity|]. split; [reflexivity|]. split; [reflexivity|].
  split.
  - apply (proj1 (X3_scheme_prefix_not_examined
                    (new_AkariProtocolMain sample_mime)
                    (sample_request (lit "AKARI:\\files/a b")))
             (lit "AKARI:\\") (lit "files/a b")
             (sample_request (lit "akari://files/a b")));
      reflexivity.
  - assert (Hshort : (List.length (url (sample_request (lit "akari:"))) <= 8)%nat)
      by (vm_compute; lia).
    split; [exact Hshort|].
    apply (proj2 (X3_scheme_prefix_not_examined
                    (new_AkariProtocolMain sample_mime)
                    (sample_request (lit "akari:"))) Hshort).
Defined.

(** X4. A caller that writes [akari://domain/uri] with a [domain] free of
    ['/'] and with no white space at the ends of [domain] and [uri] gets
    exactly [domain] looked up and exactly [uri] handed to the handler. *)
Theorem X4_url_round_trip req domain uri :
  url req = akari_url domain uri ->
  SOLIDUS ∉ domain ->
  no_outer_white_space domain ->
  no_outer_white_space uri ->
  request_domain req = domain /\ request_uri req = uri.
Proof.
  intros Hurl Hnotin Hdomain Huri.
  destruct (parse_slash domain uri req Hurl Hnotin) as [-> ->].
  by rewrite !trim_id.
Qed.

Lemma X4_url_round_trip_witness :
  url (sample_request (lit "akari://league-client/lol chat/v1/me"))
  = akari_url (lit "league-client") (lit "lol chat/v1/me") /\
  (SOLIDUS ∉ lit "league-client") /\
  no_outer_white_space (lit "league-client") /\
  no_outer_white_space (lit "lol chat/v1/me") /\
  request_domain (sample_request (lit "akari://league-client/lol chat/v1/me"))
  = lit "league-client" /\
  request_uri (sample_request (lit "akari://league-client/lol chat/v1/me"))
  = lit "lol chat/v1/me".
Proof.
  assert (H1 : SOLIDUS ∉ lit "league-client")
    by (apply (bool_decide_unpack _); vm_compute; exact I).
  assert (H2 : no_outer_white_space (lit "league-client"))
    by (split; intros c [= <-]; reflexivity).
  assert (H3 : no_outer_white_space (lit "lol chat/v1/me"))
    by (split; intros c [= <-]; reflexivity).
  split; [reflexivity|]. split; [exact H1|]. split; [exact H2|].
  split; [exact H3|].
  exact (X4_url_round_trip
           (sample_request (lit "akari://league-client/lol chat/v1/me"))
           (lit "league-client") (lit "lol chat/v1/me") eq_refl H1 H2 H3).
Defined.

(** X5. Once [registerDomain domain handler] has returned on an instance
    that lacked [domain] (a name free of ['/'] and of white space at its
    ends), every request for [akari://domain/uri] is answered by
    [handler], called with [uri] trimmed and the request, and its
    completion, a throw included, is the interceptor's.  After
    [unregisterDomain domain] the same request gets the 404 response. *)
Theorem X5_registered_domain_is_served this domain (handler : Handler) uri req :
  lookup_domain this domain = None ->
  SOLIDUS ∉ domain ->
  no_outer_white_space domain ->
  url req = akari_url domain uri ->
  handle_request (snd (registerDomain domain handler this)) req
  = handler (trim uri) req /\
  handle_request
    (snd ((registerDomain domain handler >>> unregisterDomain domain) this)) req
  = Normal (no_handler_response req).
Proof.
  intros Hnone Hnotin Hdomain Hurl.
  destruct (parse_slash domain uri req Hurl Hnotin) as [Hdom Huri].
  rewrite (trim_id domain Hdomain) in Hdom. split.
  - rewrite (registerDomain_absent _ handler _ Hnone). cbn [snd].
    rewrite <- Hdom, <- Huri. apply handle_request_with_handler_eq.
  - unfold and_then, bind at 1.
    rewrite (registerDomain_absent _ handler _ Hnone).
    rewrite (unregisterDomain_present domain handler)
      by apply lookup_with_handler_eq.
    cbn [snd]. rewrite without_with_handler by done.
    rewrite handle_request_dispatch, Hdom.
    unfold lookup_domain in Hnone. by rewrite Hnone.
Qed.

Lemma X5_registered_domain_is_served_witness :
  lookup_domain (new_AkariProtocolMain sample_mime) (lit "riot-client") = None /\
  (SOLIDUS ∉ lit "riot-client") /\
  no_outer_white_space (lit "riot-client") /\
  url (sample_request (lit "akari://riot-client/ product/v1 "))
  = akari_url (lit "riot-client") (lit " product/v1 ") /\
  handle_request
    (snd (registerDomain (lit "riot-client") (sample_handler (lit "rc:"))
            (new_AkariProtocolMain sample_mime)))
    (sample_request (lit "akari://riot-client/ product/v1 "))
  = sample_handler (lit "rc:") (lit "product/v1")
      (sample_request (lit "akari://riot-client/ product/v1 ")).
Proof.
  assert (H1 : SOLIDUS ∉ lit "riot-client")
    by (apply (bool_decide_unpack _); vm_compute; exact I).
  assert (H2 : no_outer_white_space (lit "riot-client"))
    by (split; intros c [= <-]; reflexivity).
  split; [reflexivity|]. split; [exact H1|]. split; [exact H2|].
  split; [reflexivity|].
  exact (proj1 (X5_registered_domain_is_served
                  (new_AkariProtocolMain sample_mime) (lit "riot-client")
                  (sample_handler (lit "rc:")) (lit " product/v1 ")
                  (sample_request (lit "akari://riot-client/ product/v1 "))
                  eq_refl H1 H2 eq_refl)).
Defined.

(** ** The registry under series of calls *)

Section RegistryAlgebra.

Implicit Types (this : AkariProtocolMain) (domain d : jsstring).
Implicit Types (handler h : Handler) (c : RegistryCall).

(** Two instances with the same lookups and the same [mime] are the same. *)
Lemma instance_eq this1 this2 :
  (forall d, lookup_domain this1 d = lookup_domain this2 d) ->
  _mime this1 = _mime this2 ->
  this1 = this2.
Proof.
  destruct this1 as [reg1 mime1], this2 as [reg2 mime2].
  unfold lookup_domain. simpl. intros Hreg ->. f_equal. by apply map_eq.
Qed.

(** What a call leaves under each domain. *)
Lemma lookup_after_call c this d :
  lookup_domain (snd (call c this)) d =
  if decide (d = call_domain c) then
    match c with
    | CallRegister _ handler =>
        match lookup_domain this d with
        | Some h0 => Some h0
        | None => Some handler
        end
    | CallUnregister _ => None
    end
  else lookup_domain this d.
Proof.
  destruct c as [domain handler|domain]; cbn [call call_domain];
    destruct (lookup_domain this domain) as [h0|] eqn:Hlk.
  - rewrite (registerDomain_present _ _ _ _ Hlk). cbn [snd].
    case_decide as Hd; [subst d; by rewrite Hlk|done].
  - rewrite (registerDomain_absent _ handler _ Hlk). cbn [snd].
    case_decide as Hd.
    + subst d. rewrite Hlk. apply lookup_with_handler_eq.
    + by apply lookup_with_handler_ne.
  - rewrite (unregisterDomain_present _ _ _ Hlk). cbn [snd].
    case_decide as Hd.
    + subst d. apply lookup_without_handler_eq.
    + by apply lookup_without_handler_ne.
  - rewrite (unregisterDomain_absent _ _ Hlk). cbn [snd].
    case_decide as Hd; [subst d; by rewrite Hlk|done].
Qed.

Lemma mime_after_call c this : _mime (snd (call c this)) = _mime this.
Proof.
  destruct c as [domain handler|domain]; cbn [call];
    destruct (lookup_domain this domain) as [h0|] eqn:Hlk.
  - by rewrite (registerDomain_present _ _ _ _ Hlk).
  - by rewrite (registerDomain_absent _ handler _ Hlk).
  - by rewrite (unregisterDomain_present _ _ _ Hlk).
  - by rewrite (unregisterDomain_absent _ _ Hlk).
Qed.

(** Whether a call throws depends only on the lookup of its domain. *)
Lemma outcome_of_call c this1 this2 :
  lookup_domain this1 (call_domain c) = lookup_domain this2 (call_domain c) ->
  fst (call c this1) = fst (call c this2).
Proof.
  intros Hsame.
  destruct c as [domain handler|domain]; cbn [call call_domain] in *;
    destruct (lookup_domain this1 domain) as [h1|] eqn:Hlk1;
    symmetry in Hsame.
  - by rewrite (registerDomain_present _ _ _ _ Hlk1),
      (registerDomain_present _ _ _ _ Hsame).
  - by rewrite (registerDomain_absent _ handler _ Hlk1),
      (registerDomain_absent _ handler _ Hsame).
  - by rewrite (unregisterDomain_present _ _ _ Hlk1),
      (unregisterDomain_present _ _ _ Hsame).
  - by rewrite (unregisterDomain_absent _ _ Hlk1),
      (unregisterDomain_absent _ _ Hsame).
Qed.

Lemma after_calls_cons c cs this :
  after_calls (c :: cs) this = after_calls cs (snd (call c this)).
Proof. reflexivity. Qed.

(** With no [unregisterDomain d] in the series, what [d] had stays, and
    an absent [d] gets the handler of the first [registerDomain d]. *)
Lemma lookup_after_calls_never_unregistered cs this d :
  never_unregistered d cs ->
  lookup_domain (after_calls cs this) d =
  match lookup_domain this d with
  | Some h0 => Some h0
  | None => first_register d cs
  end.
Proof.
  revert this. induction cs as [|c cs IH]; intros this Hnever.
  - cbn. by destruct (lookup_domain this d).
  - rewrite after_calls_cons, IH.
    2:{ intros domain Hin. apply Hnever. apply elem_of_cons. by right. }
    rewrite lookup_after_call.
    destruct c as [domain handler|domain]; cbn [call_domain first_register].
    + destruct (decide (d = domain)) as [->|Hne].
      * rewrite decide_True by done.
        by destruct (lookup_domain this domain).
      * rewrite decide_False by done. done.
    + rewrite decide_False; [done|].
      intros ->. apply (Hnever domain); [|done]. apply elem_of_cons. by left.
Qed.

Lemma registry_size_after_call c this :
  (registry_size (snd (call c this)) <=
   registry_size this
   + match c with CallRegister _ _ => 1 | CallUnregister _ => 0 end)%nat.
Proof.
  unfold registry_size.
  destruct c as [domain handler|domain]; cbn [call];
    destruct (lookup_domain this domain) as [h0|] eqn:Hlk.
  - rewrite (registerDomain_present _ _ _ _ Hlk). cbn [snd]. lia.
  - rewrite (registerDomain_absent _ handler _ Hlk).
    unfold with_handler, lookup_domain in *. simpl.
    rewrite map_size_insert_None by done. lia.
  - rewrite (unregisterDomain_present _ _ _ Hlk).
    unfold without_handler, lookup_domain in *. simpl.
    rewrite map_size_delete_Some by eauto. lia.
  - rewrite (unregisterDomain_absent _ _ Hlk). cbn [snd]. lia.
Qed.

End RegistryAlgebra.

(** X6. To change the handler of a registered domain a caller
    unregisters it and registers it again: on an instance that holds
    [d], [unregisterDomain d] followed by [registerDomain d h2] both
    return normally, afterwards [d] looks up to [h2] and every other
    domain is as before; with the handler [d] already had, the instance
    is exactly as it was. *)
Theorem X6_unregister_then_register_replaces this d (h h2 : Handler) :
  lookup_domain this d = Some h ->
  (exists this',
     (unregisterDomain d >>> registerDomain d h2) this = (Normal tt, this') /\
     lookup_domain this' d = Some h2 /\
     (forall d', d' <> d -> lookup_domain this' d' = lookup_domain this d') /\
     _mime this' = _mime this) /\
  (unregisterDomain d >>> registerDomain d h) this = (Normal tt, this).
Proof.
  intros Hsome.
  assert (Hstep : forall h' : Handler,
             (unregisterDomain d >>> registerDomain d h') this
             = (Normal tt, with_handler d h' (without_handler d this))).
  { intros h'. unfold and_then, bind at 1.
    rewrite (unregisterDomain_present d h this Hsome).
    apply registerDomain_absent, lookup_without_handler_eq. }
  split.
  - exists (with_handler d h2 (without_handler d this)).
    split; [apply Hstep|]. split; [apply lookup_with_handler_eq|].
    split; [|reflexivity].
    intros d' Hne. rewrite lookup_with_handler_ne by done.
    by apply lookup_without_handler_ne.
  - rewrite Hstep. f_equal. apply instance_eq; [|reflexivity].
    intros d'. destruct (decide (d' = d)) as [->|Hne].
    + by rewrite lookup_with_handler_eq.
    + rewrite lookup_with_handler_ne by done.
      by apply lookup_without_handler_ne.
Qed.

Lemma X6_unregister_then_register_replaces_witness :
  lookup_domain
    (with_handler (lit "file") (sample_handler (lit "old:"))
       (new_AkariProtocolMain sample_mime)) (lit "file")
  = Some (sample_handler (lit "old:")) /\
  (unregisterDomain (lit "file")
     >>> registerDomain (lit "file") (sample_handler (lit "old:")))
    (with_handler (lit "file") (sample_handler (lit "old:"))
       (new_AkariProtocolMain sample_mime))
  = (Normal tt,
     with_handler (lit "file") (sample_handler (lit "old:"))
       (new_AkariProtocolMain sample_mime)).
Proof.
  split; [reflexivity|].
  apply (X6_unregister_then_register_replaces _ _ _ (sample_handler (lit "new:"))).
  reflexivity.
Defined.

(** X7. Calls about different domains do not interfere: made in either
    order they leave the same instance, and whether each returns or
    throws does not depend on the other having been made. *)
Theorem X7_calls_on_distinct_domains_commute this (c1 c2 : RegistryCall) :
  call_domain c1 <> call_domain c2 ->
  after_calls [c1; c2] this = after_calls [c2; c1] this /\
  fst (call c1 (snd (call c2 this))) = fst (call c1 this) /\
  fst (call c2 (snd (call c1 this))) = fst (call c2 this).
Proof.
  intros Hne. split; [|split].
  - cbn [after_calls fold_left]. apply instance_eq.
    + intros d. rewrite !lookup_after_call.
      repeat case_decide; try done; congruence.
    + by rewrite !mime_after_call.
  - apply outcome_of_call. rewrite lookup_after_call. by rewrite decide_False.
  - apply outcome_of_call. rewrite lookup_after_call.
    rewrite decide_False; [done|]. intros Heq. by apply Hne.
Qed.

Lemma X7_calls_on_distinct_domains_commute_witness :
  call_domain (CallRegister (lit "a") (sample_handler (lit "a:")))
  <> call_domain (CallUnregister (lit "b")) /\
  after_calls [CallRegister (lit "a") (sample_handler (lit "a:"));
               CallUnregister (lit "b")]
    (with_handler (lit "b") (sample_handler (lit "b:"))
       (new_AkariProtocolMain sample_mime))
  = after_calls [CallUnregister (lit "b");
                 CallRegister (lit "a") (sample_handler (lit "a:"))]
      (with_handler (lit "b") (sample_handler (lit "b:"))
         (new_AkariProtocolMain sample_mime)).
Proof.
  assert (Hne : call_domain (CallRegister (lit "a") (sample_handler (lit "a:")))
                <> call_domain (CallUnregister (lit "b")))
    by (vm_compute; discriminate).
  split; [exact Hne|].
  exact (proj1 (X7_calls_on_distinct_domains_commute _ _ _ Hne)).
Defined.

(** X8. A registry call that throws leaves the instance exactly as it
    was.  [registerDomain] returns normally exactly when the domain is
    absent and [unregisterDomain] exactly when it is present.  No series
    of registry calls touches [_mime]. *)
Theorem X8_failed_call_changes_nothing this (c : RegistryCall) d (h : Handler) :
  (forall e, fst (call c this) = Throw e -> snd (call c this) = this) /\
  (fst (registerDomain d h this) = Normal tt <-> lookup_domain this d = None) /\
  (fst (unregisterDomain d this) = Normal tt <-> is_Some (lookup_domain this d)) /\
  (forall cs, _mime (after_calls cs this) = _mime this).
Proof.
  split; [|split; [|split]].
  - intros e.
    destruct c as [domain handler|domain]; cbn [call];
      destruct (lookup_domain this domain) as [h0|] eqn:Hlk.
    + by rewrite (registerDomain_present _ _ _ _ Hlk).
    + by rewrite (registerDomain_absent _ handler _ Hlk).
    + by rewrite (unregisterDomain_present _ _ _ Hlk).
    + by rewrite (unregisterDomain_absent _ _ Hlk).
  - destruct (lookup_domain this d) as [h0|] eqn:Hlk.
    + by rewrite (registerDomain_present _ _ _ _ Hlk).
    + by rewrite (registerDomain_absent _ h _ Hlk).
  - destruct (lookup_domain this d) as [h0|] eqn:Hlk.
    + rewrite (unregisterDomain_present _ _ _ Hlk). split; eauto.
    + rewrite (unregisterDomain_absent _ _ Hlk). split; [done|].
      by intros [? ?].
  - intros cs. revert this. induction cs as [|c' cs IH]; intros this; [done|].
    by rewrite after_calls_cons, IH, mime_after_call.
Qed.

Lemma X8_failed_call_changes_nothing_witness :
  fst (call (CallUnregister (lit "ghost")) (new_AkariProtocolMain sample_mime))
  = Throw (not_registered (lit "ghost")) /\
  snd (call (CallUnregister (lit "ghost")) (new_AkariProtocolMain sample_mime))
  = new_AkariProtocolMain sample_mime.
Proof.
  assert (Hthrow : fst (call (CallUnregister (lit "ghost"))
                          (new_AkariProtocolMain sample_mime))
                   = Throw (not_registered (lit "ghost"))) by reflexivity.
  split; [exact Hthrow|].
  exact (proj1 (X8_failed_call_changes_nothing
                  (new_AkariProtocolMain sample_mime)
                  (CallUnregister (lit "ghost")) (lit "") (sample_handler (lit "")))
           _ Hthrow).
Defined.

(** X9. A handler is never displaced by a later registration: over a
    series of calls with no [unregisterDomain d], a domain [d] that was
    registered keeps its handler, and a domain that was not gets the
    handler of the first [registerDomain d] of the series (none if there
    is no such call). *)
Theorem X9_first_registration_wins this cs d :
  never_unregistered d cs ->
  (forall h0, lookup_domain this d = Some h0 ->
     lookup_domain (after_calls cs this) d = Some h0) /\
  (lookup_domain this d = None ->
   lookup_domain (after_calls cs this) d = first_register d cs).
Proof.
  intros Hnever.
  pose proof (lookup_after_calls_never_unregistered cs this d Hnever) as Hlk.
  split.
  - intros h0 Hsome. by rewrite Hlk, Hsome.
  - intros Hnone. by rewrite Hlk, Hnone.
Qed.

Lemma X9_first_registration_wins_witness :
  never_unregistered (lit "file")
    [CallRegister (lit "file") (sample_handler (lit "first:"));
     CallUnregister (lit "other");
     CallRegister (lit "file") (sample_handler (lit "second:"))] /\
  lookup_domain (new_AkariProtocolMain sample_mime) (lit "file") = None /\
  lookup_domain
    (after_calls
       [CallRegister (lit "file") (sample_handler (lit "first:"));
        CallUnregister (lit "other");
        CallRegister (lit "file") (sample_handler (lit "second:"))]
       (new_AkariProtocolMain sample_mime)) (lit "file")
  = Some (sample_handler (lit "first:")).
Proof.
  assert (Hnever : never_unregistered (lit "file")
            [CallRegister (lit "file") (sample_handler (lit "first:"));
             CallUnregister (lit "other");
             CallRegister (lit "file") (sample_handler (lit "second:"))]).
  { intros domain Hin.
    apply elem_of_cons in Hin as [Hin|Hin]; [discriminate Hin|].
    apply elem_of_cons in Hin as [Hin|Hin];
      [injection Hin as ->; vm_compute; discriminate|].
    apply elem_of_cons in Hin as [Hin|Hin]; [discriminate Hin|].
    by apply elem_of_nil in Hin. }
  split; [exact Hnever|]. split; [reflexivity|].
  exact (proj2 (X9_first_registration_wins
                  (new_AkariProtocolMain sample_mime) _ _ Hnever) eq_refl).
Defined.

(** X10. A [registerDomain] that returns normally adds one domain to the
    registry and an [unregisterDomain] that returns normally removes one;
    after any series of calls on a new instance the registry holds at most
    as many domains as the series has [registerDomain] calls. *)
Theorem X10_registry_size this d (h : Handler) :
  (lookup_domain this d = None ->
   registry_size (snd (registerDomain d h this)) = S (registry_size this)) /\
  (is_Some (lookup_domain this d) ->
   S (registry_size (snd (unregisterDomain d this))) = registry_size this) /\
  (forall cs,
     (registry_size (after_calls cs this)
      <= registry_size this + register_calls cs)%nat) /\
  (forall mime cs,
     (registry_size (after_calls cs (new_AkariProtocolMain mime))
      <= register_calls cs)%nat).
Proof.
  assert (Hbound : forall cs this',
             (registry_size (after_calls cs this')
              <= registry_size this' + register_calls cs)%nat).
  { induction cs as [|c cs IH]; intros this'.
    - cbn. lia.
    - rewrite after_calls_cons.
      pose proof (IH (snd (call c this'))) as H1.
      pose proof (registry_size_after_call c this') as H2.
      unfold register_calls in *. destruct c; cbn [List.filter List.length] in *; lia. }
  split; [|split; [|split]].
  - intros Hnone. rewrite (registerDomain_absent _ h _ Hnone).
    unfold registry_size, with_handler, lookup_domain in *. simpl.
    by apply map_size_insert_None.
  - intros [h0 Hsome]. rewrite (unregisterDomain_present _ _ _ Hsome).
    unfold registry_size, without_handler, lookup_domain in *. simpl.
    rewrite map_size_delete_Some by eauto.
    assert (base.size (_domainRegistry this) <> 0%nat); [|lia].
    intros Hzero. apply map_size_empty_inv in Hzero.
    rewrite Hzero, lookup_empty in Hsome. discriminate.
  - intros cs. apply Hbound.
  - intros mime cs. pose proof (Hbound cs (new_AkariProtocolMain mime)) as H.
    unfold registry_size at 2 in H. simpl in H.
    rewrite map_size_empty in H. exact H.
Qed.

Lemma X10_registry_size_witness :
  lookup_domain (new_AkariProtocolMain sample_mime) (lit "file") = None /\
  registry_size
    (snd (registerDomain (lit "file") (sample_handler (lit "f:"))
            (new_AkariProtocolMain sample_mime)))
  = S (registry_size (new_AkariProtocolMain sample_mime)).
Proof.
  split; [reflexivity|].
  apply (proj1 (X10_registry_size (new_AkariProtocolMain sample_mime)
                  (lit "file") (sample_handler (lit "f:")))).
  reflexivity.
Defined.

(** ** The local file responder on every path *)

Section FileResponderEveryPath.

Implicit Types (this : AkariProtocolMain) (host : Host) (uri : jsstring).

(** The three shapes of the responder's answer. *)
Lemma response_cases this host uri :
  (exists stats,
     accessible host (path_resolve host uri) stats /\
     isDirectory stats = true) \/
  (exists stats,
     accessible host (path_resolve host uri) stats /\
     isDirectory stats = false) \/
  (exists error, access_fails host (path_resolve host uri) error).
Proof.
  unfold accessible, access_fails.
  destruct (fs_access host (path_resolve host uri) (Z.lor F_OK R_OK))
    as [[]|e] eqn:Hacc.
  - destruct (fs_stat host (path_resolve host uri)) as [stats|e] eqn:Hstat.
    + destruct (isDirectory stats) eqn:Hdir; [left|right; left]; eauto.
    + right; right. exists e. by right.
  - right; right. exists e. by left.
Qed.

End FileResponderEveryPath.

(** X11. Whatever the path and whatever the file system answers, the
    responder returns a response (it never throws) whose status is 200,
    403, 404 or 500 and whose status text is empty; the body is a file
    stream exactly when the status is 200, and every other response is a
    text body with the single header [Content-Type: text/plain]. *)
Theorem X11_file_response_shapes this host uri :
  (status (_toLocalFileResponse this host uri) = 200 \/
   status (_toLocalFileResponse this host uri) = 403 \/
   status (_toLocalFileResponse this host uri) = 404 \/
   status (_toLocalFileResponse this host uri) = 500) /\
  statusText (_toLocalFileResponse this host uri) = lit "" /\
  (status (_toLocalFileResponse this host uri) = 200 <->
   exists stream, body (_toLocalFileResponse this host uri) = BodyStream stream) /\
  (status (_toLocalFileResponse this host uri) <> 200 ->
   (exists text, body (_toLocalFileResponse this host uri) = BodyText text) /\
   headers (_toLocalFileResponse this host uri)
   = [(lit "Content-Type", lit "text/plain")]).
Proof.
  destruct (response_cases this host uri)
    as [(stats & Hacc & Hdir)|[(stats & Hacc & Hdir)|(error & Hfail)]].
  - rewrite (response_of_directory this host uri stats Hacc Hdir).
    cbn [status statusText body headers new_Response default
         init_status init_statusText init_headers].
    split; [by right; left|]. split; [reflexivity|]. split.
    + split; [discriminate|]. by intros [stream ?].
    + intros _. split; [by eexists|reflexivity].
  - rewrite (response_of_file this host uri stats Hacc Hdir).
    cbn [status statusText body headers new_Response default
         init_status init_statusText init_headers].
    split; [by left|]. split; [reflexivity|]. split.
    + split; [by eexists|reflexivity].
    + by intros [].
  - rewrite (response_of_failure this host uri error Hfail).
    cbn [status statusText body headers new_Response default
         init_status init_statusText init_headers].
    split; [repeat case_decide; auto|]. split; [reflexivity|]. split.
    + split; [repeat case_decide; discriminate|]. by intros [stream ?].
    + intros _. split; [by eexists|reflexivity].
Qed.

Lemma X11_file_response_shapes_witness :
  status (_toLocalFileResponse (new_AkariProtocolMain sample_mime) sample_host (lit "dir"))
  <> 200 /\
  headers (_toLocalFileResponse (new_AkariProtocolMain sample_mime) sample_host (lit "dir"))
  = [(lit "Content-Type", lit "text/plain")].
Proof.
  assert (Hstatus : status (_toLocalFileResponse (new_AkariProtocolMain sample_mime)
                              sample_host (lit "dir")) <> 200)
    by (vm_compute; discriminate).
  split; [exact Hstatus|].
  destruct (X11_file_response_shapes (new_AkariProtocolMain sample_mime)
              sample_host (lit "dir")) as (_ & _ & _ & Hother).
  exact (proj2 (Hother Hstatus)).
Defined.

(** X12. The responder refuses directories only: every accessible path
    whose [stat] does not say directory (a regular file, but also a FIFO,
    a socket or a device) is answered 200 with the read stream of the
    resolved path.  Its [Content-Type] is never empty: an empty result of
    [getType] is replaced by [application/octet-stream] like [null]. *)
Theorem X12_only_directories_refused this host uri stats :
  accessible host (path_resolve host uri) stats ->
  kind stats <> Directory ->
  status (_toLocalFileResponse this host uri) = 200 /\
  body (_toLocalFileResponse this host uri)
  = BodyStream (createReadStream (path_resolve host uri)) /\
  (exists type,
     get_header (lit "Content-Type") (headers (_toLocalFileResponse this host uri))
     = Some type /\ type <> lit "") /\
  (getType (_mime this) (path_resolve host uri) = Some (lit "") ->
   get_header (lit "Content-Type") (headers (_toLocalFileResponse this host uri))
   = Some (lit "application/octet-stream")).
Proof.
  intros Hacc Hkind.
  assert (Hdir : isDirectory stats = false)
    by (unfold isDirectory; by destruct (kind stats)).
  rewrite (response_of_file this host uri stats Hacc Hdir).
  split; [reflexivity|]. split; [reflexivity|].
  cbn [headers new_Response init_headers]. split.
  - eexists. split; [header_lookup|].
    destruct (getType (_mime this) (path_resolve host uri)) as [[|c type]|];
      discriminate.
  - intros Htype. header_lookup. by rewrite Htype.
Qed.

Lemma X12_only_directories_refused_witness :
  accessible (with_fs_stat (fun _ => Normal {| kind := OtherKind; st_size := 0 |}) sample_host)
    (path_resolve sample_host (lit "fifo"))
    {| kind := OtherKind; st_size := 0 |} /\
  OtherKind <> Directory /\
  status (_toLocalFileResponse (new_AkariProtocolMain sample_mime)
            (with_fs_stat (fun _ => Normal {| kind := OtherKind; st_size := 0 |}) sample_host)
            (lit "fifo")) = 200.
Proof.
  assert (Hacc : accessible
            (with_fs_stat (fun _ => Normal {| kind := OtherKind; st_size := 0 |}) sample_host)
            (path_resolve sample_host (lit "fifo"))
            {| kind := OtherKind; st_size := 0 |})
    by (split; reflexivity).
  assert (Hkind : OtherKind <> Directory) by discriminate.
  split; [exact Hacc|]. split; [exact Hkind|].
  exact (proj1 (X12_only_directories_refused (new_AkariProtocolMain sample_mime)
                  (with_fs_stat (fun _ => Normal {| kind := OtherKind; st_size := 0 |}) sample_host)
                  (lit "fifo") _ Hacc Hkind)).
Defined.

(** X13. When the access check rejects, [stat] is not consulted: the
    response carries the access error's message and is the same whatever
    [stat] would have answered, a directory included. *)
Theorem X13_access_failure_precedes_stat this host uri error
    (stat : jsstring -> Completion Stats) :
  fs_access host (path_resolve host uri) (Z.lor F_OK R_OK) = Throw error ->
  _toLocalFileResponse this (with_fs_stat stat host) uri
  = _toLocalFileResponse this host uri /\
  body (_toLocalFileResponse this host uri) = BodyText (message error).
Proof.
  intros Hacc.
  rewrite (response_of_failure this host uri error) by (by left).
  rewrite (response_of_failure this (with_fs_stat stat host) uri error)
    by (by left).
  split; reflexivity.
Qed.

Lemma X13_access_failure_precedes_stat_witness :
  fs_access sample_host (path_resolve sample_host (lit "secret")) (Z.lor F_OK R_OK)
  = Throw (system_error "EACCES" "EACCES: permission denied, access '/srv/secret'") /\
  _toLocalFileResponse (new_AkariProtocolMain sample_mime)
    (with_fs_stat (fun _ => Normal {| kind := Directory; st_size := 0 |}) sample_host)
    (lit "secret")
  = _toLocalFileResponse (new_AkariProtocolMain sample_mime) sample_host (lit "secret").
Proof.
  split; [reflexivity|].
  apply (X13_access_failure_precedes_stat (new_AkariProtocolMain sample_mime)
           sample_host (lit "secret")
           (system_error "EACCES" "EACCES: permission denied, access '/srv/secret'")).
  reflexivity.
Defined.

(** ** The stream bridge on every stream *)

Section StreamAdapterEveryStream.

Context {Chunk : Type}.
Implicit Types (chunks : list Chunk) (e : @StreamEnding) (demand : nat).

(** What the Node stream has handed over after [demand] reads, for every
    web stream. *)
Lemma drive_spec chunks e demand :
  drive demand (Suspended (getReader {| queued := chunks; ending := e |})) =
  if decide (demand <= List.length chunks)%nat
  then map Push (take demand chunks)
  else match e with
       | Stalls => map Push chunks
       | _ => map Push chunks ++ [End_]
       end.
Proof.
  revert demand. induction chunks as [|value chunks IH]; intros demand.
  - destruct demand as [|demand]; [reflexivity|].
    rewrite decide_False by (simpl; lia). by destruct e.
  - destruct demand as [|demand]; [reflexivity|].
    cbn [drive]. rewrite generator_next_chunk, IH.
    cbn [List.length]. repeat case_decide; try lia; by destruct e.
Qed.

Lemma emitted_spec (stream : @ReadableStream Chunk) demand :
  emitted (convertWebStreamToNodeStream stream) demand =
  if decide (demand <= List.length (queued stream))%nat
  then map Push (take demand (queued stream))
  else match ending stream with
       | Stalls => map Push (queued stream)
       | _ => map Push (queued stream) ++ [End_]
       end.
Proof. destruct stream as [chunks e]. apply drive_spec. Qed.

Lemma pushed_map_Push_only chunks : pushed (map (@Push Chunk) chunks) = chunks.
Proof.
  rewrite <- (app_nil_r (map Push chunks)), pushed_map_Push. apply app_nil_r.
Qed.

Lemma ends_map_Push_only chunks : ends (map (@Push Chunk) chunks) = 0%nat.
Proof. rewrite <- (app_nil_r (map Push chunks)). by rewrite ends_map_Push. Qed.

End StreamAdapterEveryStream.

(** X14. A read that fails ends the Node stream like a clean close: for
    a web stream that delivers the byte chunks [chunks] and then errors,
    the Node stream read to its end hands over [chunks] in order followed
    by one end signal, the same events as if the web stream had closed;
    the error reaches no one. *)
Theorem X14_read_failure_ends_cleanly (chunks : list (list Byte.byte))
    (e : Error) (extra : nat) :
  emitted (convertWebStreamToNodeStream {| queued := chunks; ending := Errors e |})
    (S (List.length chunks + extra))
  = map Push chunks ++ [End_] /\
  emitted (convertWebStreamToNodeStream {| queued := chunks; ending := Errors e |})
    (S (List.length chunks + extra))
  = emitted (convertWebStreamToNodeStream {| queued := chunks; ending := Closes |})
      (S (List.length chunks + extra)).
Proof.
  rewrite !emitted_spec. cbn [queued ending].
  rewrite decide_False by lia. split; reflexivity.
Qed.

(** X15. A web stream that delivers the byte chunks [chunks] and then
    neither closes nor errors leaves the Node stream open: however far the
    consumer reads, it gets the chunks and never an end signal. *)
Theorem X15_stalled_stream_never_ends (chunks : list (list Byte.byte))
    (demand : nat) :
  emitted (convertWebStreamToNodeStream {| queued := chunks; ending := Stalls |})
    demand
  = map Push (take demand chunks) /\
  ends (emitted (convertWebStreamToNodeStream {| queued := chunks; ending := Stalls |})
          demand) = 0%nat.
Proof.
  rewrite emitted_spec. cbn [queued ending].
  assert (Heq : (if decide (demand <= List.length chunks)%nat
                 then map Push (take demand chunks) else map Push chunks)
                = map Push (take demand chunks)).
  { case_decide; [done|]. by rewrite take_ge by lia. }
  rewrite Heq. split; [reflexivity|apply ends_map_Push_only].
Qed.

(** X16. For every web stream of byte chunks and however far the consumer
    reads, the chunks handed over are the first ones of the web stream, in
    order, none repeated, dropped or made up; the end signal is there
    exactly when the consumer has read past the last chunk of a stream
    that closes or errors. *)
Theorem X16_bridge_hands_over_a_prefix
    (stream : @ReadableStream (list Byte.byte)) (demand : nat) :
  pushed (emitted (convertWebStreamToNodeStream stream) demand)
  = take demand (queued stream) /\
  (ends (emitted (convertWebStreamToNodeStream stream) demand) = 1%nat <->
   (List.length (queued stream) < demand)%nat /\ ending stream <> Stalls).
Proof.
  rewrite emitted_spec. case_decide as Hle.
  - rewrite pushed_map_Push_only, ends_map_Push_only.
    split; [reflexivity|].
    split; [discriminate|]. intros [Hlt _]. lia.
  - assert (Htake : take demand (queued stream) = queued stream)
      by (apply take_ge; lia).
    rewrite Htake. destruct (ending stream) as [|e|].
    + rewrite pushed_map_Push, ends_map_Push, app_nil_r.
      split; [reflexivity|].
      split; [intros _; split; [lia|discriminate]|reflexivity].
    + rewrite pushed_map_Push, ends_map_Push, app_nil_r.
      split; [reflexivity|].
      split; [intros _; split; [lia|discriminate]|reflexivity].
    + rewrite pushed_map_Push_only, ends_map_Push_only.
      split; [reflexivity|].
      split; [discriminate|]. by intros [_ Hne].
Qed.

Lemma X16_bridge_hands_over_a_prefix_witness :
  (List.length [list_byte_of_string "ab"; list_byte_of_string ""; list_byte_of_string "c"]
   < 5)%nat /\
  Errors (new_Error (lit "aborted")) <> @Stalls /\
  ends (emitted (convertWebStreamToNodeStream
                   {| queued := [list_byte_of_string "ab"; list_byte_of_string "";
                                 list_byte_of_string "c"];
                      ending := Errors (new_Error (lit "aborted")) |}) 5)
  = 1%nat.
Proof.
  assert (Hlen : (List.length [list_byte_of_string "ab"; list_byte_of_string "";
                               list_byte_of_string "c"] < 5)%nat)
    by (vm_compute; lia).
  assert (Hend : Errors (new_Error (lit "aborted")) <> @Stalls) by discriminate.
  split; [exact Hlen|]. split; [exact Hend|].
  apply (proj2 (proj2 (X16_bridge_hands_over_a_prefix
                         {| queued := [list_byte_of_string "ab"; list_byte_of_string "";
                                       list_byte_of_string "c"];
                            ending := Errors (new_Error (lit "aborted")) |} 5))).
  split; [exact Hlen|exact Hend].
Defined.
